(** * jc-demand: the data pipeline of [app.py]

    A shallow embedding of the pipeline core of [app.py] (Google Trends
    series -> cleaning -> seasonal period inference -> STL -> result
    table), and the properties the specification states about it.

    Conventions of the embedding.
    - A pandas timestamp is its [datetime64[ns]] payload: a count of
      nanoseconds since the epoch, an [int64] kept as a [Z].  The sentinel
      [NaT] is not an instant and is left out of the model.
    - A Python [str] is a list of Unicode code points.
    - The two third-party calls ([pytrends] and [statsmodels.STL]) and the
      floating point type are parameters of the pipeline section.
    - [infer_period] is embedded twice: as a function of the timestamps,
      and statement by statement as a computation on the interpreter's
      state (array buffers, module variables, page), which the function is
      shown to describe.
    - The run block is embedded from the keyword check on: the [urllib3]
      version guard at the top of the script is taken to have passed, and
      the one-hour memoisation of [fetch_trends] is transparent, the
      provider being a function of the keyword. *)

From Stdlib Require Import String Ascii.
From Stdlib Require Import List ZArith QArith Lia Bool.
From Stdlib Require Import Permutation Sorted.
Import ListNotations.

Set Implicit Arguments.
Open Scope Z_scope.

(** ** Stable sort by an integer key

    [np.median] partitions around the middle positions and
    [DataFrame.sort_index] orders rows by their label; both are embedded by
    one insertion sort on an integer key.  It is stable; no statement below
    depends on the relative order of entries with equal keys. *)

Section SortBy.
Variable A : Type.
Variable key : A -> Z.

Fixpoint insert_by (x : A) (l : list A) : list A :=
  match l with
  | [] => [x]
  | y :: l' => if key x <=? key y then x :: y :: l' else y :: insert_by x l'
  end.

Fixpoint sort_by (l : list A) : list A :=
  match l with
  | [] => []
  | x :: l' => insert_by x (sort_by l')
  end.

Definition key_le (a b : A) : Prop := key a <= key b.
End SortBy.

(** ** [infer_period] (app.py, lines 73-84) *)

Definition Timestamp := Z.

(** Two's complement wrap-around of an [int64] result. *)
Definition wrap64 (z : Z) : Z := (z + 2 ^ 63) mod 2 ^ 64 - 2 ^ 63.

(** [np.diff(a)]: [a[1:] - a[:-1]], an [int64] subtraction per position. *)
Fixpoint np_diff (a : list Timestamp) : list Z :=
  match a with
  | x :: (y :: _) as tl => wrap64 (y - x) :: np_diff tl
  | _ => []
  end.

Definition ns_per_day : Z := 86400000000000.

(** [.astype("timedelta64[D]")] on one [timedelta64[ns]] value: numpy scales
    by the unit ratio rounding towards minus infinity, computed as a C
    division of a shifted numerator for negative values. *)
Definition astype_days (dt : Z) : Z :=
  if dt <? 0 then Z.quot (wrap64 (dt - (ns_per_day - 1))) ns_per_day
  else Z.quot dt ns_per_day.

(** [np.diff(dt_index.values).astype("timedelta64[D]").astype(int)] *)
Definition day_gaps (dt_index : list Timestamp) : list Z :=
  map astype_days (np_diff dt_index).

(** [np.median] on an integer array: the mean of the one or two middle
    entries of the ordered array, a float; [None] stands for the [nan] numpy
    gives on an empty array.  The mean of two day counts is a half-integer,
    which a float holds exactly, so the float is kept as a rational. *)
Definition np_median (a : list Z) : option Q :=
  let part := sort_by (fun z => z) a in
  let sz := length part in
  let index := Nat.div sz 2 in
  match sz with
  | O => None
  | _ =>
      if Nat.odd sz then Some (inject_Z (nth index part 0))
      else Some (Qmake (nth (index - 1) part 0 + nth index part 0) 2)
  end.

(** Python's [int(x)] on a float: truncation towards zero. *)
Definition py_int (x : Q) : Z := Z.quot (Qnum x) (Z.pos (Qden x)).

(** [int(np.median(deltas))]; [int(nan)] raises [ValueError]. *)
Definition int_median (deltas : list Z) : option Z :=
  option_map py_int (np_median deltas).

(** [infer_period]; [None] is an escaping exception. *)
Definition infer_period (dt_index : list Timestamp) : option Z :=
  if (length dt_index <? 3)%nat then Some 12
  else
    match int_median (day_gaps dt_index) with
    | None => None
    | Some med =>
        if med <=? 1 then Some 7
        else if med <=? 7 then Some 52
        else Some 12
    end.

(** Midnight of the [d]-th day after the epoch. *)
Definition day (d : Z) : Timestamp := d * ns_per_day.

(** *** The specification's words for the median of the day gaps

    These four definitions follow the specification's description of period
    inference, not the code; [infer_period_classification] compares them
    with [infer_period]. *)

(** A difference of [dt] nanoseconds in whole days, rounded down. *)
Definition whole_days (dt : Z) : Z := dt / ns_per_day.

(** [gaps] lists the day gaps between every consecutive pair of [ts]: one
    gap per pair, in order, the [i]-th from the [i]-th timestamp to the
    next, taken as numpy takes it on [int64]. *)
Definition consecutive_day_gaps (ts : list Timestamp) (gaps : list Z) : Prop :=
  length gaps = (length ts - 1)%nat /\
  forall i, (i < length gaps)%nat ->
    nth i gaps 0 = astype_days (wrap64 (nth (S i) ts 0 - nth i ts 0)).

(** [s] is [l] put in ascending order. *)
Definition ascending_arrangement (l s : list Z) : Prop :=
  Permutation s l /\ StronglySorted Z.le s.

(** Twice the median of a list in ascending order: the sum of its two
    middle entries, the middle entry counted twice when the count is odd. *)
Definition twice_median (s : list Z) : Z :=
  nth ((length s - 1) / 2) s 0 + nth (length s / 2) s 0.

(** The median as an integer: its half, if any, dropped towards zero. *)
Definition truncated_median (s : list Z) : Z := Z.quot (twice_median s) 2.

(** ** Python strings *)

(** A [str] is a sequence of Unicode code points. *)
Definition str := list N.

(** An ASCII literal as a [str]. *)
Definition lit (s : string) : str := map N_of_ascii (list_ascii_of_string s).

Fixpoint str_eqb (a b : str) : bool :=
  match a, b with
  | [], [] => true
  | x :: a', y :: b' => N.eqb x y && str_eqb a' b'
  | _, _ => false
  end.

(** [label in labels] *)
Definition str_in (label : str) (labels : list str) : bool :=
  existsb (str_eqb label) labels.

(** [str.isspace] on one code point (CPython's [_PyUnicode_IsWhitespace]). *)
Definition isspace (c : N) : bool :=
  ((9 <=? c) && (c <=? 13) || (28 <=? c) && (c <=? 32)
   || (c =? 133) || (c =? 160) || (c =? 5760)
   || (8192 <=? c) && (c <=? 8202)
   || (c =? 8232) || (c =? 8233) || (c =? 8239) || (c =? 8287)
   || (c =? 12288))%N.

Fixpoint lstrip (s : str) : str :=
  match s with
  | [] => []
  | c :: s' => if isspace c then lstrip s' else s
  end.

Definition rstrip (s : str) : str := rev (lstrip (rev s)).

(** [s.strip()] *)
Definition strip (s : str) : str := rstrip (lstrip s).

(** [s.replace(' ', '_')] *)
Definition replace_space (s : str) : str :=
  map (fun c => if (c =? 32)%N then 95%N else c) s.

(** ** The provider's table and its cleaning ([fetch_trends], lines 50-71) *)

(** The provider's columns hold integers (interest) and booleans (the
    completeness flag). *)
Inductive cell := Int64 (z : Z) | Boolean (b : bool).

(** A [DataFrame] with a datetime index, column by column; [data] keeps the
    order of the columns and admits repeated labels, as pandas does. *)
Record DataFrame := mkDataFrame {
  index : list Timestamp;
  data : list (str * list cell)
}.

(** [df.columns] *)
Definition columns (df : DataFrame) : list str := map fst (data df).

(** [len(df)] *)
Definition len (df : DataFrame) : nat := length (index df).

(** [df.empty]: some axis has length zero. *)
Definition empty (df : DataFrame) : bool :=
  (len df =? 0)%nat || (length (data df) =? 0)%nat.

(** [df.iloc[:-1]] *)
Definition iloc_drop_last (df : DataFrame) : DataFrame :=
  {| index := removelast (index df);
     data := map (fun lc => (fst lc, removelast (snd lc))) (data df) |}.

(** [df.drop(columns=[label])]: every column carrying the label goes. *)
Definition drop_columns (label : str) (df : DataFrame) : DataFrame :=
  {| index := index df;
     data := filter (fun lc => negb (str_eqb (fst lc) label)) (data df) |}.

(** [pd.to_datetime] on an index that already holds timestamps. *)
Definition pd_to_datetime (i : list Timestamp) : list Timestamp := i.

(** The entries of [col] taken in ascending order of their labels [idx]. *)
Definition take_sorted (B : Type) (idx : list Timestamp) (col : list B) : list B :=
  map snd (sort_by fst (combine idx col)).

(** [df.sort_index()] *)
Definition sort_index (df : DataFrame) : DataFrame :=
  {| index := take_sorted (index df) (index df);
     data := map (fun lc => (fst lc, take_sorted (index df) (snd lc))) (data df) |}.

Definition isPartial : str := lit "isPartial".

(** Lines 61-71: what [fetch_trends] does to the table [pytrends] returned. *)
Definition clean (df : DataFrame) : DataFrame :=
  if empty df then df
  else
    let df := if (0 <? len df)%nat then iloc_drop_last df else df in
    let df := if str_in isPartial (columns df) then drop_columns isPartial df
              else df in
    let df := {| index := pd_to_datetime (index df); data := data df |} in
    sort_index df.

(** What the provider returns (its interface): an empty result, or a dated
    table with rows under at least one column. *)
Definition provider_table (raw : DataFrame) : Prop :=
  (index raw = [] /\ data raw = []) \/ (index raw <> [] /\ data raw <> []).

(** [fetch_trends], given what [build_payload]/[interest_over_time] do for a
    keyword: they raise (left, the exception's text) or return a table. *)
Definition fetch_trends (interest_over_time : str -> str + DataFrame)
    (keyword : str) : str + DataFrame :=
  match interest_over_time keyword with
  | inl e => inl e
  | inr df => inr (clean df)
  end.

(** [df[col_name]]: the columns carrying the label (one of them makes a
    [Series], several a two-dimensional frame). *)
Definition getitem (df : DataFrame) (label : str) : list (list cell) :=
  map snd (filter (fun lc => str_eqb (fst lc) label) (data df)).

(** ** The run block (app.py, lines 102-154) *)

(** How a piece of the script ends: it goes on with a value, [st.stop()]
    ends the run, or an exception escapes. *)
Inductive status (A : Type) :=
| Continue (a : A)
| Stopped
| Raised.
Arguments Stopped {A}.
Arguments Raised {A}.

Section Pipeline.
(** Floating point numbers, and [int]/[bool] to [float] conversion. *)
Variable float : Type.
Variable float_of_Z : Z -> float.

(** [pytrends]: payload and [interest_over_time] for one keyword. *)
Variable interest_over_time : str -> str + DataFrame.

(** The three component series of an STL fit, in the order of the input's
    index. *)
Record DecomposeResult := mkDecomposeResult {
  trend : list float;
  seasonal : list float;
  resid : list float
}.

(** [STL(y, period=period, robust=True).fit()] on the index and the selected
    value columns of [y]: raises (left) or returns the components. *)
Variable STL_fit :
  list Timestamp -> list (list float) -> Z -> str + DecomposeResult.

(** [.astype(float)] *)
Definition astype_float (c : cell) : float :=
  match c with
  | Int64 z => float_of_Z z
  | Boolean b => float_of_Z (if b then 1 else 0)
  end.

(** A cell of the result table: a date or a number. *)
Inductive pcell := Date (t : Timestamp) | Num (x : float).

(** [df_plot]: labelled columns; its index is left out of the export and
    plays no role. *)
Definition PlotFrame := list (str * list pcell).

(** [pd.DataFrame(dict)] over one-dimensional columns: the lengths must
    agree, else [ValueError]. *)
Definition pd_DataFrame (d : list (str * list pcell)) : option PlotFrame :=
  match d with
  | [] => Some d
  | (_, c) :: d' =>
      if forallb (fun lc => (length (snd lc) =? length c)%nat) d'
      then Some d else None
  end.

(** [df_plot[label]]; [None] is [KeyError]. *)
Fixpoint plot_getitem (df_plot : PlotFrame) (label : str) : option (list pcell) :=
  match df_plot with
  | [] => None
  | (l, c) :: rest => if str_eqb l label then Some c else plot_getitem rest label
  end.

(** Lines 136-142.  [y.values] of a frame with several columns is
    two-dimensional, which the constructor refuses. *)
Definition assemble (y_index : list Timestamp) (y_values : list (list float))
    (res : DecomposeResult) : option PlotFrame :=
  match y_values with
  | [original] =>
      pd_DataFrame
        [ (lit "date", map Date y_index);
          (lit "original", map Num original);
          (lit "trend", map Num (trend res));
          (lit "seasonal", map Num (seasonal res));
          (lit "remainder", map Num (resid res)) ]
  | _ => None
  end.

(** A Plotly figure: its title and its traces (name, x, y). *)
Record Figure := mkFigure {
  title_text : str;
  traces : list (str * list pcell * list pcell)
}.

Definition em_dash : str := [8212%N].

(** [build_figure], lines 86-99. *)
Definition build_figure (df_plot : PlotFrame) (title_kw : str) : option Figure :=
  match plot_getitem df_plot (lit "date"),
        plot_getitem df_plot (lit "original"),
        plot_getitem df_plot (lit "trend"),
        plot_getitem df_plot (lit "seasonal"),
        plot_getitem df_plot (lit "remainder") with
  | Some d, Some o, Some t, Some s, Some r =>
      Some {| title_text :=
                lit "STL Decomposition " ++ em_dash ++ lit " " ++ title_kw
                ++ lit " " ++ em_dash ++ lit " Google Trends (US, last 5y)";
              traces := [ (lit "Original", d, o); (lit "Trend", d, t);
                          (lit "Seasonal", d, s); (lit "Residual", d, r) ] |}
  | _, _, _, _, _ => None
  end.

(** What a run does that can be observed: the Streamlit calls that show
    something, and the calls into the three stages. *)
Inductive event :=
| st_error (body : str)
| st_warning (body : str)
| st_info (body : str)
| call_fetch_trends (keyword : str)
| call_infer_period (dt_index : list Timestamp)
| call_STL (period : Z)
| st_plotly_chart (fig : Figure)
| st_dataframe (df_plot : PlotFrame)
| st_download_button (label : str) (csv_of : PlotFrame) (file_name mime : str).

(** A piece of the script: the events it emits and how it ends. *)
Definition Script (A : Type) : Type := list event * status A.

Definition ret (A : Type) (a : A) : Script A := ([], Continue a).

Definition bind (A B : Type) (m : Script A) (f : A -> Script B) : Script B :=
  match m with
  | (log, Continue a) => let (log', s) := f a in (log ++ log', s)
  | (log, Stopped) => (log, Stopped)
  | (log, Raised) => (log, Raised)
  end.

Definition emit (e : event) : Script unit := ([e], Continue tt).
Definition st_stop (A : Type) : Script A := ([], Stopped).
Definition raise (A : Type) : Script A := ([], Raised).

(** An optional value whose absence is an escaping exception. *)
Definition or_raise (A : Type) (o : option A) : Script A :=
  match o with
  | Some a => ret a
  | None => raise A
  end.

Notation "x <- m ;; k" := (bind m (fun x => k))
  (at level 61, m at next level, right associativity).
Notation "m ;;; k" := (bind m (fun _ => k))
  (at level 61, right associativity).

Definition msg_enter_keyword : str := lit "Please enter a keyword.".
Definition msg_fetch_error (e : str) : str :=
  lit "Error fetching data from Google Trends: " ++ e.
Definition msg_tip : str :=
  lit "Tip: pin urllib3<2 and try again if you see 'method_whitelist' errors.".
Definition msg_no_data : str :=
  lit "No data returned by Google Trends for this keyword/timeframe/geo.".
Definition msg_column_not_found (col_name : str) : str :=
  lit "Column '" ++ col_name ++ lit "' not found in Trends result.".
Definition msg_stl_failed (e : str) : str :=
  lit "STL decomposition failed: " ++ e.

(** [f"stl_{kw.strip().replace(' ','_')}.csv"] *)
Definition csv_file_name (kw : str) : str :=
  lit "stl_" ++ replace_space (strip kw) ++ lit ".csv".

(** The body of [if run:].  The download button carries [df_plot], of
    which the exported bytes [df_plot.to_csv(index=False)] are a function. *)
Definition execution (kw : str) : Script unit :=
  (if str_eqb (strip kw) [] then emit (st_error msg_enter_keyword) ;;; st_stop unit
   else ret tt) ;;;
  df <- (emit (call_fetch_trends (strip kw)) ;;;
         match fetch_trends interest_over_time (strip kw) with
         | inl e => emit (st_error (msg_fetch_error e)) ;;;
                    emit (st_info msg_tip) ;;; st_stop DataFrame
         | inr df => ret df
         end) ;;
  (if empty df then emit (st_warning msg_no_data) ;;; st_stop unit
   else ret tt) ;;;
  let col_name := strip kw in
  (if negb (str_in col_name (columns df))
   then emit (st_error (msg_column_not_found col_name)) ;;; st_stop unit
   else ret tt) ;;;
  let y_index := index df in
  let y_values := map (map astype_float) (getitem df col_name) in
  emit (call_infer_period y_index) ;;;
  period <- or_raise (infer_period y_index) ;;
  res <- (emit (call_STL period) ;;;
          match STL_fit y_index y_values period with
          | inl e => emit (st_error (msg_stl_failed e)) ;;; st_stop DecomposeResult
          | inr res => ret res
          end) ;;
  df_plot <- or_raise (assemble y_index y_values res) ;;
  fig <- or_raise (build_figure df_plot (strip kw)) ;;
  emit (st_plotly_chart fig) ;;;
  emit (st_dataframe df_plot) ;;;
  emit (st_download_button (lit "Download CSV") df_plot (csv_file_name kw)
          (lit "text/csv")).

(** The script from the widgets on: nothing happens unless the button was
    pressed. *)
Definition app (kw : str) (run : bool) : Script unit :=
  if run then execution kw else ret tt.

(** The events that are a fetch, and those that are a period inference or
    a decomposition. *)
Definition is_fetch (e : event) : bool :=
  match e with call_fetch_trends _ => true | _ => false end.
Definition is_inference_or_decomposition (e : event) : bool :=
  match e with call_infer_period _ | call_STL _ => true | _ => false end.

(** The events that tell the user the run failed ([st.error], [st.warning]),
    and those that show a result. *)
Definition is_report (e : event) : bool :=
  match e with st_error _ | st_warning _ => true | _ => false end.
Definition is_display (e : event) : bool :=
  match e with
  | st_plotly_chart _ | st_dataframe _ | st_download_button _ _ _ _ => true
  | _ => false
  end.

(** [y.values] for the keyword: the selected columns as floats. *)
Definition selected (df : DataFrame) (kw : str) : list (list float) :=
  map (map astype_float) (getitem df (strip kw)).

(** The ways through the run block, one constructor per exit, each with the
    events it leaves behind.  [execution_outcome] below shows that a run
    takes one of them. *)
Inductive run_outcome (kw : str) : list event -> status unit -> Prop :=
| invalid_input :
    strip kw = [] ->
    run_outcome kw [st_error msg_enter_keyword] Stopped
| fetch_failure (e : str) :
    strip kw <> [] ->
    fetch_trends interest_over_time (strip kw) = inl e ->
    run_outcome kw
      [call_fetch_trends (strip kw); st_error (msg_fetch_error e); st_info msg_tip]
      Stopped
| empty_result (df : DataFrame) :
    strip kw <> [] ->
    fetch_trends interest_over_time (strip kw) = inr df ->
    empty df = true ->
    run_outcome kw [call_fetch_trends (strip kw); st_warning msg_no_data] Stopped
| column_mismatch (df : DataFrame) :
    strip kw <> [] ->
    fetch_trends interest_over_time (strip kw) = inr df ->
    empty df = false ->
    str_in (strip kw) (columns df) = false ->
    run_outcome kw
      [call_fetch_trends (strip kw); st_error (msg_column_not_found (strip kw))]
      Stopped
| decomposition_failure (df : DataFrame) (period : Z) (e : str) :
    strip kw <> [] ->
    fetch_trends interest_over_time (strip kw) = inr df ->
    empty df = false ->
    str_in (strip kw) (columns df) = true ->
    infer_period (index df) = Some period ->
    STL_fit (index df) (selected df kw) period = inl e ->
    run_outcome kw
      [call_fetch_trends (strip kw); call_infer_period (index df);
       call_STL period; st_error (msg_stl_failed e)]
      Stopped
| table_refused (df : DataFrame) (period : Z) (res : DecomposeResult) :
    strip kw <> [] ->
    fetch_trends interest_over_time (strip kw) = inr df ->
    empty df = false ->
    str_in (strip kw) (columns df) = true ->
    infer_period (index df) = Some period ->
    STL_fit (index df) (selected df kw) period = inr res ->
    assemble (index df) (selected df kw) res = None ->
    run_outcome kw
      [call_fetch_trends (strip kw); call_infer_period (index df); call_STL period]
      Raised
| completed (df : DataFrame) (period : Z) (res : DecomposeResult)
    (df_plot : PlotFrame) (fig : Figure) :
    strip kw <> [] ->
    fetch_trends interest_over_time (strip kw) = inr df ->
    empty df = false ->
    str_in (strip kw) (columns df) = true ->
    infer_period (index df) = Some period ->
    STL_fit (index df) (selected df kw) period = inr res ->
    assemble (index df) (selected df kw) res = Some df_plot ->
    build_figure df_plot (strip kw) = Some fig ->
    run_outcome kw
      [call_fetch_trends (strip kw); call_infer_period (index df); call_STL period;
       st_plotly_chart fig; st_dataframe df_plot;
       st_download_button (lit "Download CSV") df_plot (csv_file_name kw)
         (lit "text/csv")]
      (Continue tt).
End Pipeline.

(** ** [infer_period] as a computation on the interpreter's state

    The state a Python function could read or change: the array buffers on
    the heap (an [ndarray] is an address, so that views share a buffer),
    the script's module variables, and what has been shown on the page.  A
    computation takes a state and raises ([None]) or returns a value and
    the state it leaves. *)

Inductive pyval := PyStr (s : str) | PyInt (z : Z) | PyBool (b : bool).

Record World := mkWorld {
  heap : list (list Z);
  globals : list (str * pyval);
  shown : list str
}.

Definition St (A : Type) : Type := World -> option (A * World).

Definition ret_st (A : Type) (a : A) : St A := fun w => Some (a, w).

Definition bind_st (A B : Type) (m : St A) (f : A -> St B) : St B :=
  fun w => match m w with
           | Some (a, w') => f a w'
           | None => None
           end.

Definition raise_st (A : Type) : St A := fun _ => None.

(** The state with one more buffer at the next free address. *)
Definition extend (w : World) (arr : list Z) : World :=
  {| heap := heap w ++ [arr]; globals := globals w; shown := shown w |}.

(** Reading the buffer at an address, and allocating a new buffer. *)
Definition load (a : nat) : St (list Z) :=
  fun w => match nth_error (heap w) a with
           | Some arr => Some (arr, w)
           | None => None
           end.

Definition alloc (arr : list Z) : St nat :=
  fun w => Some (length (heap w), extend w arr).

(** [len(x)] *)
Definition py_len (a : nat) : St nat :=
  bind_st (load a) (fun arr => ret_st (length arr)).

(** [dt_index.values]: a view, the same buffer. *)
Definition ndarray_values (a : nat) : St nat := ret_st a.

(** [np.diff(a)]: a new array. *)
Definition np_diff_st (a : nat) : St nat :=
  bind_st (load a) (fun arr => alloc (np_diff arr)).

(** [a.astype(...)]: a converted copy. *)
Definition astype_st (f : Z -> Z) (a : nat) : St nat :=
  bind_st (load a) (fun arr => alloc (map f arr)).

(** [np.median(a)] with its default [overwrite_input=False]: the
    partitioning works on a copy. *)
Definition np_median_st (a : nat) : St (option Q) :=
  bind_st (load a) (fun arr =>
  bind_st (alloc (sort_by (fun z => z) arr)) (fun _ =>
  ret_st (np_median arr))).

(** [int(x)]: [ValueError] on [nan]. *)
Definition py_int_st (x : option Q) : St Z :=
  match x with
  | Some q => ret_st (py_int q)
  | None => raise_st Z
  end.

(** [infer_period], statement by statement, on the index at [dt_index]. *)
Definition infer_period_st (dt_index : nat) : St Z :=
  bind_st (py_len dt_index) (fun n =>
  if (n <? 3)%nat then ret_st 12
  else
    bind_st (ndarray_values dt_index) (fun values =>
    bind_st (np_diff_st values) (fun diffs =>
    bind_st (astype_st astype_days diffs) (fun days =>
    bind_st (astype_st (fun z => z) days) (fun deltas =>
    bind_st (np_median_st deltas) (fun m =>
    bind_st (py_int_st m) (fun med =>
    if med <=? 1 then ret_st 7
    else if med <=? 7 then ret_st 52
    else ret_st 12))))))).

(** What a state keeps of an earlier one: every buffer it had, the module
    variables and the page. *)
Definition preserves (w w' : World) : Prop :=
  globals w' = globals w /\ shown w' = shown w /\
  forall b arr, nth_error (heap w) b = Some arr ->
                nth_error (heap w') b = Some arr.

(** A state at the time of a call: one index on the heap and the script's
    module variables. *)
Definition weekly_world : World :=
  {| heap := [[day 0; day 7; day 14]];
     globals := [ (lit "kw", PyStr (lit "rocket stove"));
                  (lit "run", PyBool true);
                  (lit "TZ", PyInt 360) ];
     shown := [] |}.

(** Another state, with the same index at another address. *)
Definition other_world : World :=
  {| heap := [[day 3]; [day 0; day 7; day 14]];
     globals := [];
     shown := [lit "Fetching Google Trends"] |}.

(** ** Doubles for the two third-party calls

    A provider that knows one keyword, answers a second one with a table
    that lacks the keyword's column, and has nothing for any other; and a
    decomposition that puts the whole series into the trend.  Floats are
    integers here. *)

Definition rocket_stove : str := lit "rocket stove".

Definition weekly_table (label : str) : DataFrame :=
  {| index := [day 0; day 7; day 14; day 21];
     data := [ (label, [Int64 40; Int64 55; Int64 47; Int64 12]);
               (isPartial, [Boolean false; Boolean false; Boolean false;
                            Boolean true]) ] |}.

Definition no_data : DataFrame := {| index := []; data := [] |}.

Definition stub_interest_over_time (keyword : str) : str + DataFrame :=
  if str_eqb keyword rocket_stove then inr (weekly_table rocket_stove)
  else if str_eqb keyword (lit "mislabelled") then inr (weekly_table (lit "other"))
  else inr no_data.

Definition stub_STL_fit (y_index : list Timestamp) (y_values : list (list Z))
    (period : Z) : str + DecomposeResult Z :=
  match y_values with
  | [y] => inr {| trend := y; seasonal := map (fun _ => 0) y;
                  resid := map (fun _ => 0) y |}
  | _ => inl (lit "endog is required to have ndim 1")
  end.

Definition stub_execution (kw : str) : Script Z unit :=
  execution (fun z => z) stub_interest_over_time stub_STL_fit kw.

(** A provider table whose first two rows carry the same timestamp. *)
Definition repeated_date_table : DataFrame :=
  {| index := [day 0; day 0; day 7];
     data := [ (rocket_stove, [Int64 40; Int64 55; Int64 47]);
               (isPartial, [Boolean false; Boolean false; Boolean true]) ] |}.

(** A provider that is unreachable, a provider with one observation only,
    a provider that answers with the keyword's column twice, and a
    decomposition that rejects every series. *)
Definition unreachable_provider (keyword : str) : str + DataFrame :=
  inl (lit "HTTPSConnectionPool: Read timed out.").

Definition one_row_provider (keyword : str) : str + DataFrame :=
  inr {| index := [day 0];
         data := [(keyword, [Int64 40]); (isPartial, [Boolean true])] |}.

Definition failing_STL_fit (y_index : list Timestamp) (y_values : list (list Z))
    (period : Z) : str + DecomposeResult Z :=
  inl (lit "period must be a positive integer >= 2").

(** A provider table with one observation a month. *)
Definition monthly_table : DataFrame :=
  {| index := [day 0; day 31; day 59; day 90; day 120];
     data := [ (rocket_stove, [Int64 3; Int64 9; Int64 27; Int64 81; Int64 100]);
               (isPartial, [Boolean false; Boolean false; Boolean false;
                            Boolean false; Boolean true]) ] |}.

(** A provider table whose rows are not in order of time. *)
Definition shuffled_table : DataFrame :=
  {| index := [day 14; day 0; day 7; day 21];
     data := [ (rocket_stove, [Int64 47; Int64 40; Int64 55; Int64 12]);
               (isPartial, [Boolean false; Boolean false; Boolean false;
                            Boolean true]) ] |}.

(** * Properties *)

(** ** The sort *)

Section SortByFacts.
Variable A : Type.
Variable key : A -> Z.

Lemma insert_by_perm (x : A) (l : list A) :
  Permutation (insert_by key x l) (x :: l).
Proof.
  induction l as [|y l IH]; simpl.
  - apply Permutation_refl.
  - destruct (key x <=? key y).
    + apply Permutation_refl.
    + eapply perm_trans; [apply perm_skip, IH | apply perm_swap].
Qed.

Lemma sort_by_perm (l : list A) : Permutation (sort_by key l) l.
Proof.
  induction l as [|x l IH]; simpl.
  - apply perm_nil.
  - eapply perm_trans; [apply insert_by_perm | apply perm_skip, IH].
Qed.

Lemma sort_by_length (l : list A) : length (sort_by key l) = length l.
Proof. apply Permutation_length, sort_by_perm. Qed.

Lemma insert_by_sorted (x : A) (l : list A) :
  StronglySorted (key_le key) l ->
  StronglySorted (key_le key) (insert_by key x l).
Proof.
  induction 1 as [|y l Hs IH Hall]; simpl.
  - constructor; constructor.
  - destruct (key x <=? key y) eqn:E.
    + apply Z.leb_le in E. constructor.
      * constructor; assumption.
      * constructor; [exact E|].
        eapply Forall_impl; [|exact Hall].
        intros a Ha. unfold key_le in *. lia.
    + apply Z.leb_gt in E. constructor; [exact IH|].
      eapply Permutation_Forall.
      * apply Permutation_sym, insert_by_perm.
      * constructor; [unfold key_le; lia | exact Hall].
Qed.

Lemma sort_by_sorted (l : list A) : StronglySorted (key_le key) (sort_by key l).
Proof.
  induction l as [|x l IH]; simpl.
  - constructor.
  - apply insert_by_sorted, IH.
Qed.
End SortByFacts.

(** The order of the sort depends on the keys alone. *)
Lemma sort_by_map (A B : Type) (f : A -> B) (kA : A -> Z) (kB : B -> Z) :
  (forall a, kB (f a) = kA a) ->
  forall l, sort_by kB (map f l) = map f (sort_by kA l).
Proof.
  intros Hk.
  assert (Hins : forall x l, insert_by kB (f x) (map f l) = map f (insert_by kA x l)).
  { intros x l. induction l as [|y l IH]; simpl; [reflexivity|].
    rewrite !Hk. destruct (kA x <=? kA y); simpl; [reflexivity|].
    now rewrite IH. }
  induction l as [|x l IH]; simpl; [reflexivity|].
  now rewrite IH, Hins.
Qed.

(** ** Period inference *)

Lemma sorted_le_of_key (l : list Z) :
  StronglySorted (key_le (fun z => z)) l -> StronglySorted Z.le l.
Proof. induction 1; constructor; assumption. Qed.


Lemma np_diff_length (a : list Timestamp) :
  length (np_diff a) = (length a - 1)%nat.
Proof.
  induction a as [|x [|y a] IH]; try reflexivity.
  change (np_diff (x :: y :: a)) with (wrap64 (y - x) :: np_diff (y :: a)).
  simpl length in *. lia.
Qed.

Lemma day_gaps_length (dt_index : list Timestamp) :
  length (day_gaps dt_index) = (length dt_index - 1)%nat.
Proof. unfold day_gaps. now rewrite length_map, np_diff_length. Qed.

(** On a non-empty array the median is a number, not [nan]. *)
Lemma int_median_defined (deltas : list Z) :
  deltas <> [] -> exists med, int_median deltas = Some med.
Proof.
  intros Hne. unfold int_median, np_median.
  rewrite sort_by_length.
  destruct deltas as [|d deltas]; [congruence|].
  simpl length.
  destruct (Nat.odd (S (length deltas))); simpl; eauto.
Qed.

Lemma infer_period_short (dt_index : list Timestamp) :
  (length dt_index < 3)%nat -> infer_period dt_index = Some 12.
Proof.
  intros H. unfold infer_period.
  apply Nat.ltb_lt in H. now rewrite H.
Qed.

Lemma infer_period_long (dt_index : list Timestamp) :
  (3 <= length dt_index)%nat ->
  exists med, int_median (day_gaps dt_index) = Some med /\
    infer_period dt_index =
      Some (if med <=? 1 then 7 else if med <=? 7 then 52 else 12).
Proof.
  intros H. unfold infer_period.
  assert (E : (length dt_index <? 3)%nat = false) by (apply Nat.ltb_ge; lia).
  rewrite E.
  destruct (int_median_defined (deltas := day_gaps dt_index)) as [med Hmed].
  { intros C. apply (f_equal (@length Z)) in C.
    rewrite day_gaps_length in C. simpl in C. lia. }
  exists med. rewrite Hmed. split; [reflexivity|].
  destruct (med <=? 1); [reflexivity|]. destruct (med <=? 7); reflexivity.
Qed.

Lemma odd_middle (n : nat) : Nat.odd n = true -> ((n - 1) / 2 = n / 2)%nat.
Proof.
  intros H. apply Nat.odd_spec in H. destruct H as [k ->].
  replace (2 * k + 1 - 1)%nat with (k * 2)%nat by lia.
  rewrite Nat.div_mul by discriminate.
  apply (Nat.div_unique _ 2 k 1); lia.
Qed.

Lemma even_middle (n : nat) :
  n <> 0%nat -> Nat.odd n = false -> ((n - 1) / 2 = n / 2 - 1)%nat.
Proof.
  intros Hn H.
  assert (He : Nat.even n = true) by (unfold Nat.odd in H; now destruct (Nat.even n)).
  apply Nat.even_spec in He. destruct He as [k ->].
  replace (2 * k)%nat with (k * 2)%nat by lia.
  rewrite Nat.div_mul by discriminate.
  symmetry. apply (Nat.div_unique _ 2 (k - 1) 1); lia.
Qed.

(** The integer median is Python's [int] of the textbook median: the mean
    of the two middle entries (one entry taken twice when the count is odd)
    of the gaps put in ascending order. *)
Lemma int_median_textbook (deltas : list Z) (med : Z) :
  int_median deltas = Some med ->
  exists s, Permutation s deltas /\ StronglySorted Z.le s /\
    med = Z.quot (nth ((length s - 1) / 2) s 0 + nth (length s / 2) s 0) 2.
Proof.
  unfold int_median, np_median. intros H.
  exists (sort_by (fun z => z) deltas).
  split; [apply sort_by_perm|]. split; [apply sorted_le_of_key, sort_by_sorted|].
  destruct (length (sort_by (fun z => z) deltas)) as [|n] eqn:En; [discriminate|].
  destruct (Nat.odd (S n)) eqn:Eo; simpl in H; inversion H; subst; clear H.
  - rewrite (@odd_middle (S n) Eo). unfold py_int. simpl Qnum. simpl Qden.
    rewrite Z.quot_1_r.
    replace (nth (S n / 2) _ 0 + nth (S n / 2) _ 0)
      with (nth (S n / 2) (sort_by (fun z => z) deltas) 0 * 2) by lia.
    now rewrite Z.quot_mul.
  - rewrite (@even_middle (S n)) by (auto; discriminate). reflexivity.
Qed.

Lemma wrap64_small (z : Z) : - 2 ^ 63 <= z < 2 ^ 63 -> wrap64 z = z.
Proof.
  intros H. unfold wrap64. rewrite Z.mod_small; lia.
Qed.

Lemma day_gaps_nth (dt_index : list Timestamp) (i : nat) :
  (i < length (day_gaps dt_index))%nat ->
  nth i (day_gaps dt_index) 0 =
  astype_days (wrap64 (nth (S i) dt_index 0 - nth i dt_index 0)).
Proof.
  unfold day_gaps. revert i.
  induction dt_index as [|x [|y a] IH]; intros i Hi; try (simpl in Hi; lia).
  change (np_diff (x :: y :: a)) with (wrap64 (y - x) :: np_diff (y :: a)) in *.
  destruct i as [|i]; [reflexivity|].
  simpl in Hi. apply (IH i). simpl. lia.
Qed.

(** The day gaps of the specification are those the code computes. *)
Lemma consecutive_day_gaps_unique (dt_index : list Timestamp) (gaps : list Z) :
  consecutive_day_gaps dt_index gaps -> gaps = day_gaps dt_index.
Proof.
  intros [Hlen Hnth].
  apply (nth_ext gaps (day_gaps dt_index) 0 0).
  - now rewrite day_gaps_length.
  - intros i Hi. rewrite (Hnth i Hi). symmetry. apply day_gaps_nth.
    rewrite day_gaps_length. lia.
Qed.

(** A list has one ascending arrangement. *)
Lemma ascending_unique (l1 l2 : list Z) :
  StronglySorted Z.le l1 -> StronglySorted Z.le l2 -> Permutation l1 l2 ->
  l1 = l2.
Proof.
  intros H1. revert l2.
  induction H1 as [|x l1 Hs1 IH Hall1]; intros l2 H2 Hp.
  - now apply Permutation_nil in Hp.
  - destruct H2 as [|y l2 Hs2 Hall2].
    + apply Permutation_sym, Permutation_nil in Hp. discriminate.
    + assert (x = y).
      { rewrite Forall_forall in Hall1, Hall2.
        assert (Hx : In x (y :: l2)) by (eapply Permutation_in; [exact Hp | now left]).
        assert (Hy : In y (x :: l1))
          by (eapply Permutation_in; [apply Permutation_sym, Hp | now left]).
        destruct Hx as [Hx|Hx]; [now symmetry|].
        destruct Hy as [Hy|Hy]; [exact Hy|].
        specialize (Hall1 y Hy). specialize (Hall2 x Hx). lia. }
      subst y. f_equal. apply IH; [exact Hs2|].
      now apply Permutation_cons_inv in Hp.
Qed.

Lemma ascending_arrangement_unique (l s : list Z) :
  ascending_arrangement l s -> s = sort_by (fun z => z) l.
Proof.
  intros [Hp Hs]. apply ascending_unique; [exact Hs | |].
  - apply sorted_le_of_key, sort_by_sorted.
  - eapply perm_trans; [exact Hp | apply Permutation_sym, sort_by_perm].
Qed.

(** The integer median of the code is the truncated median of the
    specification, on the ascending arrangement. *)
Lemma int_median_truncated (deltas : list Z) (med : Z) :
  int_median deltas = Some med ->
  med = truncated_median (sort_by (fun z => z) deltas).
Proof.
  intros H. destruct (int_median_textbook _ H) as (s & Hp & Hs & ->).
  assert (E : s = sort_by (fun z => z) deltas)
    by (apply ascending_arrangement_unique; split; assumption).
  now rewrite E.
Qed.

(** Within the range of [int64] a gap is the difference in whole days,
    rounded down, also when it is negative. *)
Lemma astype_days_floor (d : Z) :
  - 2 ^ 63 + ns_per_day <= d < 2 ^ 63 ->
  astype_days (wrap64 d) = whole_days d.
Proof.
  intros H. unfold whole_days.
  assert (Hns : ns_per_day = 86400000000000) by reflexivity.
  rewrite wrap64_small by lia. unfold astype_days.
  destruct (Z.ltb_spec d 0) as [Hneg|Hpos].
  - rewrite wrap64_small by lia.
    replace (d - (ns_per_day - 1)) with (- (ns_per_day - 1 - d)) by lia.
    rewrite Z.quot_opp_l by (rewrite Hns; discriminate).
    rewrite Z.quot_div_nonneg by lia.
    pose proof (Z.div_mod d ns_per_day ltac:(rewrite Hns; discriminate)) as E.
    pose proof (Z.mod_pos_bound d ns_per_day ltac:(lia)) as B.
    assert (Hq : - (d / ns_per_day) = (ns_per_day - 1 - d) / ns_per_day).
    { apply (Z.div_unique _ _ _ (ns_per_day - 1 - d mod ns_per_day)); [left; lia|].
      rewrite Hns in *. lia. }
    lia.
  - apply Z.quot_div_nonneg; lia.
Qed.

Lemma quot2_truncates (t : Z) :
  (0 <= t -> 2 * Z.quot t 2 <= t < 2 * Z.quot t 2 + 2) /\
  (t <= 0 -> 2 * Z.quot t 2 - 2 < t <= 2 * Z.quot t 2).
Proof.
  pose proof (Z.quot_rem' t 2) as E. split; intros H.
  - pose proof (Z.rem_bound_pos t 2 H ltac:(lia)). lia.
  - pose proof (Z.rem_bound_pos (- t) 2 ltac:(lia) ltac:(lia)) as Hr.
    rewrite Z.rem_opp_l' in Hr. lia.
Qed.

(** C1. With fewer than three timestamps the period is 12.  Otherwise the
    consecutive day gaps exist and have one ascending arrangement, and for
    any list [gaps] that holds the day gap of every consecutive pair of
    timestamps (within the range of [int64], the difference in whole days
    rounded down) and any ascending arrangement [s] of it, with [med] the
    median of [s] as an integer (the mean of the two middle gaps, a half
    dropped towards zero), the period is 7 when [med <= 1], 52 when
    [1 < med <= 7] and 12 when [med > 7]; the boundary values 1 and 7 fall
    in the first and the second class, and so do the medians of a day and a
    half and of seven days and a half. *)
Theorem infer_period_classification (dt_index : list Timestamp) :
  ((length dt_index < 3)%nat -> infer_period dt_index = Some 12) /\
  ((3 <= length dt_index)%nat ->
   (exists gaps s,
      consecutive_day_gaps dt_index gaps /\ ascending_arrangement gaps s) /\
   (forall gaps s,
      consecutive_day_gaps dt_index gaps -> ascending_arrangement gaps s ->
      let med := truncated_median s in
      (forall i, (i < length gaps)%nat ->
         - 2 ^ 63 + ns_per_day <= nth (S i) dt_index 0 - nth i dt_index 0 < 2 ^ 63 ->
         nth i gaps 0 = whole_days (nth (S i) dt_index 0 - nth i dt_index 0)) /\
      (0 <= twice_median s -> 2 * med <= twice_median s < 2 * med + 2) /\
      (twice_median s <= 0 -> 2 * med - 2 < twice_median s <= 2 * med) /\
      (med <= 1 -> infer_period dt_index = Some 7) /\
      (1 < med <= 7 -> infer_period dt_index = Some 52) /\
      (7 < med -> infer_period dt_index = Some 12) /\
      (med = 1 -> infer_period dt_index = Some 7) /\
      (med = 7 -> infer_period dt_index = Some 52) /\
      (twice_median s = 3 -> infer_period dt_index = Some 7) /\
      (twice_median s = 15 -> infer_period dt_index = Some 52))).
Proof.
  split; [apply infer_period_short|].
  intros H. split.
  - exists (day_gaps dt_index), (sort_by (fun z => z) (day_gaps dt_index)).
    split; [split|split].
    + apply day_gaps_length.
    + intros i Hi. now apply day_gaps_nth.
    + apply sort_by_perm.
    + apply sorted_le_of_key, sort_by_sorted.
  - intros gaps s Hg Hs med.
    pose proof Hg as [_ Hnth].
    pose proof (consecutive_day_gaps_unique Hg) as Eg.
    pose proof (ascending_arrangement_unique Hs) as Es.
    destruct (infer_period_long dt_index H) as (m & Hmed & Hp).
    apply int_median_truncated in Hmed.
    assert (Em : m = med) by (unfold med; rewrite Es, Eg; exact Hmed).
    rewrite Em in Hp. rewrite Hp.
    destruct (quot2_truncates (twice_median s)) as [Hpos Hneg].
    fold (truncated_median s) in Hpos, Hneg. fold med in Hpos, Hneg.
    split; [|split; [exact Hpos | split; [exact Hneg|]]].
    + intros i Hi Hr. rewrite (Hnth i Hi). now apply astype_days_floor.
    + repeat split; intros Hc;
        destruct (Z.leb_spec med 1); destruct (Z.leb_spec med 7);
        try reflexivity; lia.
Qed.

Lemma infer_period_total (dt_index : list Timestamp) :
  exists p, infer_period dt_index = Some p /\ (p = 7 \/ p = 52 \/ p = 12).
Proof.
  destruct (Nat.lt_ge_cases (length dt_index) 3) as [H|H].
  - exists 12. split; [now apply infer_period_short | auto].
  - destruct (infer_period_long dt_index H) as (med & _ & Hp).
    eexists. split; [exact Hp|].
    destruct (med <=? 1); [auto|]. destruct (med <=? 7); auto.
Qed.

(** *** [infer_period] on the interpreter's state *)

Lemma load_extend_old (w : World) (x : list Z) (a : nat) (arr : list Z) :
  nth_error (heap w) a = Some arr -> nth_error (heap (extend w x)) a = Some arr.
Proof.
  intros H. simpl. rewrite nth_error_app1; [exact H|].
  apply nth_error_Some. congruence.
Qed.

Lemma load_extend_new (w : World) (x : list Z) :
  nth_error (heap (extend w x)) (length (heap w)) = Some x.
Proof.
  simpl. rewrite nth_error_app2 by lia. now rewrite Nat.sub_diag.
Qed.

(** An operation that reads one buffer and allocates its result. *)
Lemma load_alloc (f : list Z -> list Z) (a : nat) (arr : list Z) (w : World) :
  nth_error (heap w) a = Some arr ->
  bind_st (load a) (fun arr => alloc (f arr)) w =
  Some (length (heap w), extend w (f arr)).
Proof. intros H. unfold bind_st, load, alloc. now rewrite H. Qed.

Lemma preserves_refl (w : World) : preserves w w.
Proof. repeat split; auto. Qed.

Lemma preserves_extend (w w' : World) (x : list Z) :
  preserves w w' -> preserves w (extend w' x).
Proof.
  intros (Hg & Hs & Hh). repeat split; simpl; auto.
  intros b arr Hb. apply (@load_extend_old w' x b arr), Hh, Hb.
Qed.

Lemma infer_period_st_run (w : World) (a : nat) (dt_index : list Timestamp) :
  nth_error (heap w) a = Some dt_index ->
  exists p w', infer_period_st a w = Some (p, w') /\
               infer_period dt_index = Some p /\ preserves w w'.
Proof.
  intros Ha. unfold infer_period_st, py_len.
  assert (Hlen : bind_st (load a) (fun arr => ret_st (length arr)) w =
                 Some (length dt_index, w))
    by (unfold bind_st, load, ret_st; now rewrite Ha).
  unfold bind_st at 1. rewrite Hlen.
  destruct (length dt_index <? 3)%nat eqn:E3.
  - exists 12, w. split; [reflexivity|]. split; [|apply preserves_refl].
    apply infer_period_short. now apply Nat.ltb_lt.
  - apply Nat.ltb_ge in E3.
    destruct (infer_period_long dt_index E3) as (med & Hmed & Hp).
    unfold int_median in Hmed.
    destruct (np_median (day_gaps dt_index)) as [q|] eqn:Hq; [|discriminate].
    simpl in Hmed. inversion Hmed; subst med; clear Hmed.
    unfold ndarray_values, np_diff_st, astype_st, np_median_st.
    unfold bind_st at 1. unfold ret_st at 1.
    unfold bind_st at 1. rewrite (@load_alloc np_diff a dt_index w Ha).
    set (w1 := extend w (np_diff dt_index)).
    unfold bind_st at 1.
    rewrite (@load_alloc (map astype_days) (length (heap w)) (np_diff dt_index) w1
               (@load_extend_new w (np_diff dt_index))).
    fold w1. set (w2 := extend w1 (map astype_days (np_diff dt_index))).
    unfold bind_st at 1.
    rewrite (@load_alloc (map (fun z => z)) (length (heap w1))
               (map astype_days (np_diff dt_index)) w2
               (@load_extend_new w1 (map astype_days (np_diff dt_index)))).
    fold w2. rewrite map_id. fold (day_gaps dt_index).
    set (w3 := extend w2 (day_gaps dt_index)).
    assert (Hm : bind_st (load (length (heap w2)))
                   (fun arr => bind_st (alloc (sort_by (fun z => z) arr))
                                 (fun _ => ret_st (np_median arr))) w3 =
                 Some (Some q, extend w3 (sort_by (fun z => z) (day_gaps dt_index)))).
    { unfold bind_st, load, alloc, ret_st.
      unfold w3. rewrite load_extend_new. now rewrite Hq. }
    unfold bind_st at 1. rewrite Hm.
    set (w4 := extend w3 _).
    unfold bind_st, py_int_st, ret_st.
    exists (if py_int q <=? 1 then 7 else if py_int q <=? 7 then 52 else 12), w4.
    split; [|split; [exact Hp|]].
    + destruct (py_int q <=? 1); [reflexivity|].
      destruct (py_int q <=? 7); reflexivity.
    + unfold w4, w3, w2, w1. repeat apply preserves_extend. apply preserves_refl.
Qed.

(** C8. Period inference has no side effect and its result depends on the
    timestamps alone.  Run statement by statement on any interpreter state
    that holds the index, it raises nothing and returns the period the
    function [infer_period] gives for the timestamps; it leaves every array
    on the heap (the index among them), the module variables and the page
    as they were, allocating temporaries only; and a second run, on any
    other state holding the same timestamps at any address, returns the
    same period. *)
Theorem infer_period_deterministic_pure (w : World) (a : nat)
    (dt_index : list Timestamp) :
  nth_error (heap w) a = Some dt_index ->
  exists p w',
    infer_period_st a w = Some (p, w') /\
    infer_period dt_index = Some p /\
    globals w' = globals w /\
    shown w' = shown w /\
    (forall b arr, nth_error (heap w) b = Some arr ->
                   nth_error (heap w') b = Some arr) /\
    (forall w2 a2, nth_error (heap w2) a2 = Some dt_index ->
       exists w2', infer_period_st a2 w2 = Some (p, w2')).
Proof.
  intros Ha.
  destruct (@infer_period_st_run w a dt_index Ha) as (p & w' & Hrun & Hp & Hg & Hs & Hh).
  exists p, w'. repeat split; try assumption.
  intros w2 a2 Ha2.
  destruct (@infer_period_st_run w2 a2 dt_index Ha2) as (p2 & w2' & Hrun2 & Hp2 & _).
  exists w2'. rewrite Hrun2. congruence.
Qed.

Lemma infer_period_deterministic_pure_witness :
  exists w',
    infer_period_st 0 weekly_world = Some (52, w') /\
    globals w' = globals weekly_world /\
    nth_error (heap w') 0 = Some [day 0; day 7; day 14] /\
    exists w2', infer_period_st 1 other_world = Some (52, w2').
Proof.
  destruct (@infer_period_deterministic_pure weekly_world 0 [day 0; day 7; day 14])
    as (p & w' & Hrun & Hp & Hg & _ & Hh & Hdet).
  - reflexivity.
  - assert (E : p = 52) by (vm_compute in Hp; now inversion Hp). subst p.
    exists w'. split; [exact Hrun|]. split; [exact Hg|].
    split; [apply Hh; reflexivity|].
    apply (Hdet other_world 1%nat). reflexivity.
Defined.

(** C9. Period inference never fails: for every timestamp sequence it
    returns a positive integer (one of 7, 52 and 12); the only failing
    branch, the median of no gaps at all, is not reached. *)
Theorem infer_period_total_positive (dt_index : list Timestamp) :
  infer_period dt_index <> None /\
  exists p, infer_period dt_index = Some p /\ 0 < p /\
            (p = 7 \/ p = 52 \/ p = 12).
Proof.
  destruct (infer_period_total dt_index) as (p & Hp & Hc).
  split; [rewrite Hp; discriminate|].
  exists p. repeat split; [exact Hp | lia | exact Hc].
Qed.

(** ** Strings *)

Lemma str_eqb_eq (a b : str) : str_eqb a b = true <-> a = b.
Proof.
  revert b. induction a as [|x a IH]; destruct b as [|y b]; simpl;
    try (split; [discriminate|discriminate]); [tauto|].
  rewrite andb_true_iff, N.eqb_eq, IH.
  split; [intros [-> ->]; reflexivity | intros H; inversion H; auto].
Qed.

Lemma str_eqb_refl (a : str) : str_eqb a a = true.
Proof. now apply str_eqb_eq. Qed.

Lemma str_in_In (label : str) (labels : list str) :
  str_in label labels = true <-> In label labels.
Proof.
  unfold str_in. rewrite existsb_exists. split.
  - intros (x & Hx & E). apply str_eqb_eq in E. now subst.
  - intros H. exists label. split; [exact H | apply str_eqb_refl].
Qed.

Lemma lstrip_nil_iff (s : str) : lstrip s = [] <-> forallb isspace s = true.
Proof.
  induction s as [|c s IH]; simpl; [tauto|].
  destruct (isspace c); simpl; [exact IH|].
  split; discriminate.
Qed.

Lemma forallb_rev (A : Type) (f : A -> bool) (l : list A) :
  forallb f (rev l) = forallb f l.
Proof.
  induction l as [|x l IH]; simpl; [reflexivity|].
  rewrite forallb_app, IH. simpl. rewrite andb_true_r. apply andb_comm.
Qed.

(** The suffix [lstrip] keeps. *)
Lemma lstrip_suffix (s : str) :
  exists ws, s = ws ++ lstrip s /\ forallb isspace ws = true.
Proof.
  induction s as [|c s (ws & E & Hws)]; simpl.
  - exists []. auto.
  - destruct (isspace c) eqn:Hc.
    + exists (c :: ws). simpl. rewrite Hc, Hws. now rewrite <- E.
    + exists []. auto.
Qed.

(** A keyword trims to nothing exactly when it is empty or all whitespace. *)
Lemma strip_nil_iff (s : str) : strip s = [] <-> forallb isspace s = true.
Proof.
  unfold strip, rstrip. split.
  - intros H.
    assert (H' : lstrip (rev (lstrip s)) = []).
    { apply (f_equal (@rev N)) in H. now rewrite rev_involutive in H. }
    apply lstrip_nil_iff in H'. rewrite forallb_rev in H'.
    destruct (lstrip_suffix s) as (ws & E & Hws).
    rewrite E, forallb_app, Hws, H'. reflexivity.
  - intros H. apply lstrip_nil_iff in H. rewrite H. reflexivity.
Qed.

Lemma lstrip_fixed (s : str) :
  lstrip s = s <-> s = [] \/ exists c s', s = c :: s' /\ isspace c = false.
Proof.
  destruct s as [|c s]; simpl.
  - split; auto.
  - destruct (isspace c) eqn:Hc.
    + split.
      * intros H. exfalso.
        destruct (lstrip_suffix s) as (ws & E & _).
        apply (f_equal (@length N)) in H. rewrite E in H at 2.
        simpl in H. rewrite length_app in H. lia.
      * intros [H|(c' & s' & H & Hc')]; [discriminate|].
        inversion H; subst. congruence.
    + split; [|reflexivity]. intros _. right. exists c, s. auto.
Qed.

Lemma lstrip_idempotent (s : str) : lstrip (lstrip s) = lstrip s.
Proof.
  induction s as [|c s IH]; simpl; [reflexivity|].
  destruct (isspace c) eqn:Hc; [exact IH|]. simpl. now rewrite Hc.
Qed.

(** What [rstrip] keeps is a prefix. *)
Lemma rstrip_prefix (s : str) : exists ws, s = rstrip s ++ ws.
Proof.
  unfold rstrip. destruct (lstrip_suffix (rev s)) as (ws & E & _).
  exists (rev ws). rewrite <- rev_app_distr, <- E. symmetry. apply rev_involutive.
Qed.

Lemma lstrip_rstrip_fixed (s : str) : lstrip s = s -> lstrip (rstrip s) = rstrip s.
Proof.
  intros H. apply lstrip_fixed. destruct (rstrip_prefix s) as (ws & E).
  destruct (rstrip s) as [|c r]; [left; reflexivity|].
  right. exists c, r. split; [reflexivity|].
  apply lstrip_fixed in H. destruct H as [H|(c' & s' & H & Hc)].
  - rewrite H in E. discriminate.
  - rewrite H in E. inversion E; subst. exact Hc.
Qed.

Lemma rstrip_idempotent (s : str) : rstrip (rstrip s) = rstrip s.
Proof. unfold rstrip. now rewrite rev_involutive, lstrip_idempotent. Qed.

(** Trimming a trimmed keyword changes nothing. *)
Lemma strip_idempotent (s : str) : strip (strip s) = strip s.
Proof.
  unfold strip.
  rewrite (lstrip_rstrip_fixed (lstrip_idempotent s)).
  apply rstrip_idempotent.
Qed.

(** ** Cleaning *)

Lemma removelast_length (A : Type) (l : list A) :
  length (removelast l) = (length l - 1)%nat.
Proof.
  rewrite removelast_firstn_len, length_firstn. lia.
Qed.

Lemma combine_diag (idx : list Timestamp) :
  combine idx idx = map (fun t => (t, t)) idx.
Proof. induction idx as [|t idx IH]; simpl; [reflexivity | now rewrite IH]. Qed.

(** Sorting an index by itself is sorting its timestamps. *)
Lemma take_sorted_index (idx : list Timestamp) :
  take_sorted idx idx = sort_by (fun t => t) idx.
Proof.
  unfold take_sorted. rewrite combine_diag.
  rewrite (sort_by_map (fun t => (t, t)) (fun t => t) fst) by reflexivity.
  rewrite map_map. simpl. apply map_id.
Qed.

Lemma sort_index_sorted (df : DataFrame) :
  StronglySorted Z.le (index (sort_index df)).
Proof.
  simpl. rewrite take_sorted_index. apply sorted_le_of_key, sort_by_sorted.
Qed.

Lemma sort_index_perm (df : DataFrame) :
  Permutation (index (sort_index df)) (index df).
Proof. simpl. rewrite take_sorted_index. apply sort_by_perm. Qed.

Lemma columns_sort_index (df : DataFrame) : columns (sort_index df) = columns df.
Proof. unfold columns. simpl. rewrite map_map. reflexivity. Qed.

Lemma columns_iloc_drop_last (df : DataFrame) :
  columns (iloc_drop_last df) = columns df.
Proof. unfold columns. simpl. rewrite map_map. reflexivity. Qed.

Lemma columns_drop_columns (label : str) (df : DataFrame) :
  columns (drop_columns label df) =
  filter (fun l => negb (str_eqb l label)) (columns df).
Proof.
  unfold columns. simpl. induction (data df) as [|[l c] d IH]; simpl; [reflexivity|].
  destruct (str_eqb l label); simpl; now rewrite IH.
Qed.

Lemma filter_absent (label : str) (labels : list str) :
  str_in label labels = false ->
  filter (fun l => negb (str_eqb l label)) labels = labels.
Proof.
  intros H. apply forallb_filter_id. apply forallb_forall. intros l Hl.
  destruct (str_eqb l label) eqn:E; [|reflexivity].
  apply str_eqb_eq in E. subst l.
  apply str_in_In in Hl. congruence.
Qed.

Lemma empty_false (df : DataFrame) :
  empty df = false -> index df <> [] /\ data df <> [].
Proof.
  unfold empty, len. intros H. apply orb_false_elim in H as [H1 H2].
  split; intros E; rewrite E in *; discriminate.
Qed.

(** What [clean] makes of a table that is not [empty]. *)
Lemma clean_nonempty (raw : DataFrame) :
  empty raw = false ->
  index (clean raw) = sort_by (fun t => t) (removelast (index raw)) /\
  columns (clean raw) =
    filter (fun l => negb (str_eqb l isPartial)) (columns raw) /\
  length (data (clean raw)) = length (columns (clean raw)).
Proof.
  intros He. unfold clean. rewrite He.
  destruct (empty_false raw He) as [Hi _].
  assert (Hl : (0 <? len raw)%nat = true).
  { apply Nat.ltb_lt. unfold len. destruct (index raw); [congruence | simpl; lia]. }
  rewrite Hl. unfold pd_to_datetime.
  rewrite columns_iloc_drop_last.
  repeat split.
  - destruct (str_in isPartial (columns raw)); simpl; apply take_sorted_index.
  - rewrite columns_sort_index. unfold columns at 1. simpl.
    destruct (str_in isPartial (columns raw)) eqn:E.
    + fold (columns (drop_columns isPartial (iloc_drop_last raw))).
      now rewrite columns_drop_columns, columns_iloc_drop_last.
    + fold (columns (iloc_drop_last raw)).
      rewrite columns_iloc_drop_last. symmetry. now apply filter_absent.
  - unfold columns. now rewrite length_map.
Qed.

Lemma str_in_filter_self (label : str) (labels : list str) :
  str_in label (filter (fun l => negb (str_eqb l label)) labels) = false.
Proof.
  destruct (str_in label _) eqn:E; [|reflexivity].
  apply str_in_In, filter_In in E. destruct E as [_ E].
  now rewrite str_eqb_refl in E.
Qed.

(** The cleaned table has no column the raw table had not. *)
Lemma columns_clean_incl (raw : DataFrame) (label : str) :
  str_in label (columns (clean raw)) = true ->
  str_in label (columns raw) = true.
Proof.
  destruct (empty raw) eqn:He.
  - unfold clean. now rewrite He.
  - destruct (clean_nonempty raw He) as (_ & Hc & _). rewrite Hc.
    rewrite !str_in_In, filter_In. tauto.
Qed.

Lemma take_sorted_length (B : Type) (idx : list Timestamp) (col : list B) :
  length col = length idx -> length (take_sorted idx col) = length idx.
Proof.
  intros H. unfold take_sorted.
  rewrite length_map, sort_by_length, length_combine. lia.
Qed.

(** Cleaning keeps the columns as long as the index: the rows stay whole. *)
Lemma clean_aligned (raw : DataFrame) :
  Forall (fun lc => length (snd lc) = len raw) (data raw) ->
  Forall (fun lc => length (snd lc) = len (clean raw)) (data (clean raw)).
Proof.
  intros Hwf. unfold clean. destruct (empty raw); [exact Hwf|].
  assert (H1 : Forall (fun lc => length (snd lc) = len (iloc_drop_last raw))
                 (data (iloc_drop_last raw))).
  { unfold len. simpl. apply Forall_map. eapply Forall_impl; [|exact Hwf].
    intros lc E. simpl. unfold len in E. now rewrite !removelast_length, E. }
  assert (H2 : forall df, Forall (fun lc => length (snd lc) = len df) (data df) ->
                 Forall (fun lc => length (snd lc) = len (sort_index df))
                   (data (sort_index df))).
  { intros df H. unfold len. simpl. apply Forall_map.
    eapply Forall_impl; [|exact H].
    intros lc E. simpl. unfold len in E.
    rewrite !take_sorted_length; auto. }
  assert (H3 : forall df, Forall (fun lc => length (snd lc) = len df) (data df) ->
                 Forall (fun lc => length (snd lc) = len (drop_columns isPartial df))
                   (data (drop_columns isPartial df))).
  { intros df H. unfold len. simpl. rewrite Forall_forall in *.
    intros lc Hin. apply filter_In in Hin. apply H, Hin. }
  unfold pd_to_datetime.
  destruct (0 <? len raw)%nat;
    destruct (str_in isPartial _); apply H2;
    first [exact H1 | exact Hwf | exact (H3 _ H1) | exact (H3 _ Hwf)].
Qed.

(** C2. For a table of N rows as the provider returns it (see
    [provider_table]), cleaning leaves N-1 rows (none when N is 0), namely
    the timestamps of all rows but the last, keeps every column but the
    completeness flag, and gives an empty table when the provider returned
    no rows or nothing remains without the last row. *)
Theorem clean_drops_trailing_row (raw : DataFrame) :
  provider_table raw ->
  (len (clean raw) <= len raw - 1)%nat /\
  len (clean raw) = (len raw - 1)%nat /\
  Permutation (index (clean raw)) (removelast (index raw)) /\
  columns (clean raw) =
    filter (fun l => negb (str_eqb l isPartial)) (columns raw) /\
  str_in isPartial (columns (clean raw)) = false /\
  (len raw = 0%nat -> empty (clean raw) = true) /\
  (removelast (index raw) = [] -> empty (clean raw) = true).
Proof.
  intros [[Hi Hd]|[Hi Hd]].
  - (* the empty result is returned as it is *)
    assert (He : empty raw = true) by (unfold empty, len; now rewrite Hi).
    unfold clean. rewrite He. unfold len, columns. rewrite Hi, Hd. simpl.
    repeat split; auto.
  - assert (He : empty raw = false).
    { unfold empty, len. destruct (index raw); [congruence|].
      destruct (data raw); [congruence | reflexivity]. }
    destruct (clean_nonempty raw He) as (Hidx & Hcols & Hlen).
    assert (Hn : len (clean raw) = (len raw - 1)%nat).
    { unfold len. now rewrite Hidx, sort_by_length, removelast_length. }
    repeat split.
    + lia.
    + exact Hn.
    + rewrite Hidx. apply sort_by_perm.
    + exact Hcols.
    + rewrite Hcols. apply str_in_filter_self.
    + intros H0. unfold empty. rewrite Hn, H0. reflexivity.
    + intros Hr. unfold empty, len. rewrite Hidx, Hr. reflexivity.
Qed.

Lemma strongly_sorted_lt_NoDup (l : list Z) : StronglySorted Z.lt l -> NoDup l.
Proof.
  induction 1 as [|x l Hs IH Hall]; constructor; [|exact IH].
  intros Hin. rewrite Forall_forall in Hall. specialize (Hall x Hin). lia.
Qed.

Lemma strongly_sorted_le_NoDup_lt (l : list Z) :
  StronglySorted Z.le l -> NoDup l -> StronglySorted Z.lt l.
Proof.
  induction 1 as [|x l Hs IH Hall]; intros Hnd; constructor.
  - apply IH. apply NoDup_cons_iff in Hnd. tauto.
  - apply NoDup_cons_iff in Hnd. destruct Hnd as [Hnotin _].
    rewrite Forall_forall in *. intros y Hy.
    specialize (Hall y Hy).
    assert (x <> y) by (intros ->; contradiction). lia.
Qed.

Lemma sorted_lt_strongly (l : list Z) : Sorted Z.lt l <-> StronglySorted Z.lt l.
Proof.
  split; [|apply StronglySorted_Sorted].
  apply Sorted_StronglySorted. intros x y z. apply Z.lt_trans.
Qed.

Lemma clean_empty_raw (raw : DataFrame) :
  empty (clean raw) = false -> empty raw = false.
Proof.
  destruct (empty raw) eqn:He; [|reflexivity].
  intros H. unfold clean in H. rewrite He in H. congruence.
Qed.

(** C3, as the code has it.  The timestamps of a non-empty cleaned series
    are in ascending order; they are strictly increasing (no timestamp
    twice) exactly when the provider's rows other than the dropped last one
    carry pairwise distinct timestamps: cleaning sorts and removes no
    duplicate. *)
Theorem clean_index_ascending (raw : DataFrame) :
  empty (clean raw) = false ->
  Sorted Z.le (index (clean raw)) /\
  (Sorted Z.lt (index (clean raw)) <-> NoDup (removelast (index raw))).
Proof.
  intros He. apply clean_empty_raw in He.
  destruct (clean_nonempty raw He) as (Hidx & _ & _). rewrite Hidx.
  pose proof (sorted_le_of_key (sort_by_sorted (fun t => t) (removelast (index raw))))
    as Hs.
  pose proof (sort_by_perm (fun t => t) (removelast (index raw))) as Hp.
  split; [now apply StronglySorted_Sorted|].
  rewrite sorted_lt_strongly. split.
  - intros Hlt. eapply Permutation_NoDup; [exact Hp|].
    now apply strongly_sorted_lt_NoDup.
  - intros Hnd. apply strongly_sorted_le_NoDup_lt; [exact Hs|].
    eapply Permutation_NoDup; [apply Permutation_sym, Hp | exact Hnd].
Qed.

(** C3 as stated fails: a provider table with one date on two rows is
    cleaned into a non-empty series with that date twice. *)
Lemma clean_keeps_repeated_dates :
  provider_table repeated_date_table /\
  empty (clean repeated_date_table) = false /\
  index (clean repeated_date_table) = [day 0; day 0] /\
  ~ Sorted Z.lt (index (clean repeated_date_table)) /\
  ~ NoDup (index (clean repeated_date_table)).
Proof.
  assert (E : index (clean repeated_date_table) = [day 0; day 0]) by reflexivity.
  split; [right; split; discriminate|].
  split; [reflexivity|]. split; [exact E|]. rewrite E. split.
  - intros H. inversion H as [|? ? _ Hd]; subst.
    inversion Hd as [|? ? Hlt]; subst. revert Hlt. apply Z.lt_irrefl.
  - intros H. inversion H as [|? ? Hn _]; subst. apply Hn. now left.
Qed.

Lemma clean_index_ascending_witness :
  empty (clean (weekly_table rocket_stove)) = false /\
  Sorted Z.le (index (clean (weekly_table rocket_stove))).
Proof.
  split; [reflexivity|].
  apply (clean_index_ascending (weekly_table rocket_stove)). reflexivity.
Defined.

Lemma clean_drops_trailing_row_witness :
  provider_table (weekly_table rocket_stove) /\
  len (clean (weekly_table rocket_stove)) = 3%nat /\
  str_in isPartial (columns (clean (weekly_table rocket_stove))) = false.
Proof.
  assert (H : provider_table (weekly_table rocket_stove))
    by (right; split; discriminate).
  split; [exact H|].
  destruct (clean_drops_trailing_row H) as (_ & Hn & _ & _ & Hf & _).
  split; [exact Hn | exact Hf].
Defined.

(** ** The run *)

Section PipelineFacts.
Variable float : Type.
Variable float_of_Z : Z -> float.
Variable interest_over_time : str -> str + DataFrame.
Variable STL_fit :
  list Timestamp -> list (list float) -> Z -> str + DecomposeResult float.

Local Abbreviation exec := (execution float_of_Z interest_over_time STL_fit).
Local Abbreviation fetch := (fetch_trends interest_over_time).
Local Abbreviation script := (app float_of_Z interest_over_time STL_fit).

Lemma bind_Continue (A B : Type) (m : Script float A) (f : A -> Script float B)
    (log : list (event float)) (b : B) :
  bind m f = (log, Continue b) ->
  exists a l1 l2, m = (l1, Continue a) /\ f a = (l2, Continue b) /\
                  log = l1 ++ l2.
Proof.
  destruct m as [l1 [a| |]]; simpl; try discriminate.
  destruct (f a) as [l2 s] eqn:E. intros H. inversion H; subst.
  exists a, l1, l2. auto.
Qed.

Lemma or_raise_Continue (A : Type) (o : option A) (log : list (event float))
    (a : A) :
  or_raise float o = (log, Continue a) -> o = Some a /\ log = [].
Proof.
  destruct o; simpl; intros H; inversion H; auto.
Qed.

(** The table built at lines 136-142, when the constructor accepts it. *)
Lemma assemble_shape (y_index : list Timestamp) (y_values : list (list float))
    (res : DecomposeResult float) (df_plot : PlotFrame float) :
  assemble y_index y_values res = Some df_plot ->
  map fst df_plot =
    [lit "date"; lit "original"; lit "trend"; lit "seasonal"; lit "remainder"] /\
  Forall (fun lc => length (snd lc) = length y_index) df_plot /\
  plot_getitem df_plot (lit "date") = Some (map (@Date float) y_index).
Proof.
  unfold assemble. destruct y_values as [|original [|? ?]]; try discriminate.
  unfold pd_DataFrame.
  match goal with |- context [forallb ?f ?l] => destruct (forallb f l) eqn:E end;
    [|discriminate].
  intros H. inversion H; subst; clear H.
  split; [reflexivity|]. split; [|reflexivity].
  rewrite forallb_forall in E.
  constructor; [simpl; apply length_map|].
  apply Forall_forall. intros lc Hlc. specialize (E lc Hlc).
  apply Nat.eqb_eq in E. rewrite E. simpl. apply length_map.
Qed.

(** A run that goes through every stage: what it fetched and what it built. *)
Lemma execution_completed (kw : str) (log : list (event float)) :
  exec kw = (log, Continue tt) ->
  exists df res period df_plot fig,
    fetch (strip kw) = inr df /\
    infer_period (index df) = Some period /\
    STL_fit (index df) (map (map (astype_float float_of_Z)) (getitem df (strip kw)))
      period = inr res /\
    assemble (index df) (map (map (astype_float float_of_Z)) (getitem df (strip kw)))
      res = Some df_plot /\
    build_figure df_plot (strip kw) = Some fig /\
    log = [ call_fetch_trends float (strip kw);
            call_infer_period float (index df);
            call_STL float period;
            st_plotly_chart fig;
            st_dataframe df_plot;
            st_download_button (lit "Download CSV") df_plot (csv_file_name kw)
              (lit "text/csv") ].
Proof.
  unfold execution. intros H.
  apply bind_Continue in H as (? & l1 & l1' & H1 & H & ->).
  destruct (str_eqb (strip kw) []); [discriminate|].
  inversion H1; subst; clear H1.
  apply bind_Continue in H as (df & l2 & l2' & H2 & H & ->).
  destruct (fetch (strip kw)) as [e|df'] eqn:Hf; [discriminate|].
  inversion H2; subst; clear H2.
  apply bind_Continue in H as (? & l3 & l3' & H3 & H & ->).
  destruct (empty df); [discriminate|].
  inversion H3; subst; clear H3.
  apply bind_Continue in H as (? & l4 & l4' & H4 & H & ->).
  destruct (negb (str_in (strip kw) (columns df))); [discriminate|].
  inversion H4; subst; clear H4.
  apply bind_Continue in H as (? & l5 & l5' & H5 & H & ->).
  inversion H5; subst; clear H5.
  apply bind_Continue in H as (period & l6 & l6' & H6 & H & ->).
  apply or_raise_Continue in H6 as [Hp ->].
  apply bind_Continue in H as (res & l7 & l7' & H7 & H & ->).
  destruct (STL_fit _ _ period) as [e|res'] eqn:Hs; [discriminate|].
  inversion H7; subst; clear H7.
  apply bind_Continue in H as (df_plot & l8 & l8' & H8 & H & ->).
  apply or_raise_Continue in H8 as [Ha ->].
  apply bind_Continue in H as (fig & l9 & l9' & H9 & H & ->).
  apply or_raise_Continue in H9 as [Hfig ->].
  inversion H; subst; clear H.
  exists df, res, period, df_plot, fig. repeat split; assumption.
Qed.
(** C5. A run that completes shows and exports one table; its columns are
    date, original, trend, seasonal and remainder, in this order and no
    other, each column has as many entries as the cleaned series has rows,
    and the date column is the index of the cleaned series. *)
Theorem result_table_shape (kw : str) (log : list (event float)) :
  script kw true = (log, Continue tt) ->
  exists df df_plot,
    fetch (strip kw) = inr df /\
    In (st_dataframe df_plot) log /\
    In (st_download_button (lit "Download CSV") df_plot (csv_file_name kw)
          (lit "text/csv")) log /\
    map fst df_plot =
      [lit "date"; lit "original"; lit "trend"; lit "seasonal"; lit "remainder"] /\
    Forall (fun lc => length (snd lc) = len df) df_plot /\
    plot_getitem df_plot (lit "date") = Some (map (@Date float) (index df)).
Proof.
  intros H. apply execution_completed in H
    as (df & res & period & df_plot & fig & Hf & _ & _ & Ha & _ & ->).
  apply assemble_shape in Ha as (Hc & Hl & Hd).
  exists df, df_plot. split; [exact Hf|].
  split; [simpl; tauto|]. split; [simpl; tauto|].
  split; [exact Hc|]. split; [exact Hl | exact Hd].
Qed.

(** C6. When the keyword is not blank, the fetch returns a table, the
    cleaned table is not empty and the trimmed keyword labels no column of
    the provider's table, the run fetches, reports that the column was not
    found and stops: no period is inferred and nothing is decomposed. *)
Theorem column_mismatch_stops (kw : str) (raw : DataFrame) :
  strip kw <> [] ->
  interest_over_time (strip kw) = inr raw ->
  empty (clean raw) = false ->
  ~ In (strip kw) (columns raw) ->
  script kw true =
    ([ call_fetch_trends float (strip kw);
       st_error float (msg_column_not_found (strip kw)) ], Stopped) /\
  existsb (@is_inference_or_decomposition float) (fst (script kw true)) = false.
Proof.
  intros Hkw Hraw Hne Hcol.
  assert (E1 : str_eqb (strip kw) [] = false).
  { destruct (str_eqb (strip kw) []) eqn:E; [|reflexivity].
    apply str_eqb_eq in E. contradiction. }
  assert (E2 : str_in (strip kw) (columns (clean raw)) = false).
  { destruct (str_in (strip kw) (columns (clean raw))) eqn:E; [|reflexivity].
    apply columns_clean_incl, str_in_In in E. contradiction. }
  assert (E : script kw true =
    ([ call_fetch_trends float (strip kw);
       st_error float (msg_column_not_found (strip kw)) ], Stopped)).
  { unfold app, execution, fetch_trends. rewrite E1, Hraw. simpl.
    rewrite Hne. simpl. rewrite E2. reflexivity. }
  split; [exact E|]. rewrite E. reflexivity.
Qed.

(** C7. A keyword that is empty or made of whitespace only is rejected:
    the run shows the request for a keyword and stops, and fetches
    nothing. *)
Theorem blank_keyword_rejected (kw : str) :
  forallb isspace kw = true ->
  script kw true = ([st_error float msg_enter_keyword], Stopped) /\
  existsb (@is_fetch float) (fst (script kw true)) = false.
Proof.
  intros H. apply strip_nil_iff in H.
  assert (E : script kw true = ([st_error float msg_enter_keyword], Stopped)).
  { unfold app, execution. rewrite H. reflexivity. }
  split; [exact E|]. rewrite E. reflexivity.
Qed.

(** C10. Two keywords that are equal once trimmed give the same run: the
    same fetch argument, the same column looked up, the same chart title,
    the same exported table and the same file name. *)
Theorem run_depends_on_trimmed_keyword (kw1 kw2 : str) (run : bool) :
  strip kw1 = strip kw2 ->
  script kw1 run = script kw2 run /\
  script kw1 run = script (strip kw1) run.
Proof.
  intros H. unfold app, execution, csv_file_name.
  rewrite strip_idempotent, H. split; reflexivity.
Qed.
End PipelineFacts.

(** ** The statements at concrete inputs *)

Example infer_daily : infer_period [day 0; day 1; day 2; day 3] = Some 7.
Proof. reflexivity. Qed.

Example infer_weekly : infer_period [day 0; day 7; day 14; day 21] = Some 52.
Proof. reflexivity. Qed.

Example infer_eight_days : infer_period [day 0; day 8; day 16] = Some 12.
Proof. reflexivity. Qed.

Example infer_two_points : infer_period [day 0; day 400] = Some 12.
Proof. reflexivity. Qed.

(** A median of a day and a half counts as one day. *)
Example infer_half_day_median : infer_period [day 0; day 1; day 3] = Some 7.
Proof. reflexivity. Qed.

(** A gap of one nanosecond backwards is a gap of minus one day. *)
Example day_gaps_backwards : day_gaps [day 3; day 1; day 1 - 1] = [-2; -1].
Proof. reflexivity. Qed.

Example strip_keyword :
  strip (lit "  rocket stove " ++ [160%N; 10%N]) = rocket_stove.
Proof. reflexivity. Qed.

Lemma infer_period_classification_witness :
  infer_period [day 0; day 1; day 3] = Some 7.
Proof.
  destruct (infer_period_classification [day 0; day 1; day 3]) as [_ H].
  destruct H as [_ Hall]; [simpl; lia|].
  destruct (Hall [1; 2] [1; 2]) as (_ & _ & _ & _ & _ & _ & _ & _ & H3 & _).
  - split; [reflexivity|]. intros i Hi.
    destruct i as [|[|i]]; [reflexivity | reflexivity | simpl in Hi; lia].
  - split; [apply Permutation_refl|].
    repeat constructor; discriminate.
  - apply H3. reflexivity.
Defined.

Lemma result_table_shape_witness :
  exists (df : DataFrame) (df_plot : PlotFrame Z),
    fetch_trends stub_interest_over_time (strip (lit " rocket stove ")) = inr df /\
    len df = 3%nat /\
    map fst df_plot =
      [lit "date"; lit "original"; lit "trend"; lit "seasonal"; lit "remainder"] /\
    Forall (fun lc => length (snd lc) = len df) df_plot.
Proof.
  destruct (@result_table_shape Z (fun z => z) stub_interest_over_time stub_STL_fit
              (lit " rocket stove ")
              (fst (stub_execution (lit " rocket stove "))))
    as (df & df_plot & Hf & _ & _ & Hc & Hl & _).
  - vm_compute. reflexivity.
  - exists df, df_plot. split; [exact Hf|]. split; [|split; [exact Hc | exact Hl]].
    vm_compute in Hf. inversion Hf. reflexivity.
Defined.

Lemma column_mismatch_stops_witness :
  stub_execution (lit "mislabelled ") =
    ([ call_fetch_trends Z (lit "mislabelled");
       st_error Z (msg_column_not_found (lit "mislabelled")) ], Stopped).
Proof.
  apply (@column_mismatch_stops Z (fun z => z) stub_interest_over_time stub_STL_fit
           (lit "mislabelled ") (weekly_table (lit "other"))).
  - vm_compute. discriminate.
  - vm_compute. reflexivity.
  - vm_compute. reflexivity.
  - vm_compute. intros [H|[H|[]]]; discriminate H.
Defined.

Lemma blank_keyword_rejected_witness :
  stub_execution [32%N; 9%N; 160%N] = ([st_error Z msg_enter_keyword], Stopped).
Proof.
  apply (@blank_keyword_rejected Z (fun z => z) stub_interest_over_time stub_STL_fit
           [32%N; 9%N; 160%N]).
  vm_compute. reflexivity.
Defined.

Lemma run_depends_on_trimmed_keyword_witness :
  stub_execution (lit " rocket stove") = stub_execution (lit "rocket stove  ").
Proof.
  apply (@run_depends_on_trimmed_keyword Z (fun z => z) stub_interest_over_time
           stub_STL_fit (lit " rocket stove") (lit "rocket stove  ") true).
  vm_compute. reflexivity.
Defined.

(** * Further properties of the code *)

(** ** Period inference: what decides the period *)

Lemma np_diff_shift (c : Z) (a : list Timestamp) :
  np_diff (map (Z.add c) a) = np_diff a.
Proof.
  induction a as [|x [|y a] IH]; try reflexivity.
  change (np_diff (map (Z.add c) (x :: y :: a)))
    with (wrap64 (c + y - (c + x)) :: np_diff (map (Z.add c) (y :: a))).
  change (np_diff (x :: y :: a)) with (wrap64 (y - x) :: np_diff (y :: a)).
  rewrite IH. f_equal. f_equal. lia.
Qed.

(** X1. The period depends on the spacing of the timestamps only: moving
    the whole index in time by any amount leaves it unchanged. *)
Theorem infer_period_shift (c : Z) (dt_index : list Timestamp) :
  infer_period (map (Z.add c) dt_index) = infer_period dt_index.
Proof.
  unfold infer_period, day_gaps. now rewrite length_map, np_diff_shift.
Qed.

Lemma quot2_bounds (lo hi a b : Z) :
  lo <= a <= hi -> lo <= b <= hi -> lo <= Z.quot (a + b) 2 <= hi.
Proof.
  intros Ha Hb.
  pose proof (Z.quot_rem' (a + b) 2) as E.
  destruct (Z_le_gt_dec 0 (a + b)) as [Hs|Hs].
  - pose proof (Z.rem_bound_pos (a + b) 2 Hs ltac:(lia)). lia.
  - pose proof (Z.rem_bound_pos (- (a + b)) 2 ltac:(lia) ltac:(lia)) as Hr.
    rewrite Z.rem_opp_l' in Hr. lia.
Qed.

Lemma nth_Forall (P : Z -> Prop) (l : list Z) (i : nat) :
  Forall P l -> (i < length l)%nat -> P (nth i l 0).
Proof.
  intros H Hi. rewrite Forall_forall in H. apply H, nth_In, Hi.
Qed.

(** The integer median lies between any bounds of the gaps. *)
Lemma int_median_bounds (lo hi : Z) (deltas : list Z) (med : Z) :
  Forall (fun g => lo <= g <= hi) deltas ->
  int_median deltas = Some med -> lo <= med <= hi.
Proof.
  intros Hall Hmed.
  assert (Hne : deltas <> []) by (intros ->; discriminate).
  destruct (int_median_textbook _ Hmed) as (s & Hp & _ & ->).
  assert (Hs : Forall (fun g => lo <= g <= hi) s)
    by (eapply Permutation_Forall; [apply Permutation_sym, Hp | exact Hall]).
  assert (Hlen : (0 < length s)%nat).
  { rewrite (Permutation_length Hp). destruct deltas; [congruence | simpl; lia]. }
  apply quot2_bounds; apply (@nth_Forall (fun g => lo <= g <= hi) s _ Hs).
  - apply Nat.Div0.div_lt_upper_bound. lia.
  - apply Nat.Div0.div_lt_upper_bound. lia.
Qed.

(** X2. With at least three timestamps, bounds on all the day gaps decide
    the period: gaps of at most one day give 7, gaps of two to seven days
    give 52, and gaps of eight days or more give 12, however irregular the
    spacing is within these bounds. *)
Theorem infer_period_of_bounded_gaps (lo hi : Z) (dt_index : list Timestamp) :
  (3 <= length dt_index)%nat ->
  Forall (fun g => lo <= g <= hi) (day_gaps dt_index) ->
  (hi <= 1 -> infer_period dt_index = Some 7) /\
  (2 <= lo -> hi <= 7 -> infer_period dt_index = Some 52) /\
  (8 <= lo -> infer_period dt_index = Some 12).
Proof.
  intros Hlen Hall.
  destruct (infer_period_long dt_index Hlen) as (med & Hmed & ->).
  pose proof (int_median_bounds Hall Hmed) as Hb.
  repeat split; intros;
    destruct (Z.leb_spec med 1); destruct (Z.leb_spec med 7);
    try reflexivity; lia.
Qed.

Lemma infer_period_of_bounded_gaps_witness :
  infer_period (index monthly_table) = Some 12.
Proof.
  apply (@infer_period_of_bounded_gaps 28 31 (index monthly_table)).
  - simpl. lia.
  - vm_compute. repeat constructor; discriminate.
  - lia.
Defined.

Lemma astype_days_nonneg (dt : Z) :
  0 <= dt -> astype_days dt = dt / ns_per_day.
Proof.
  intros H. unfold astype_days.
  destruct (Z.ltb_spec dt 0); [lia|].
  apply Z.quot_div_nonneg; [exact H | reflexivity].
Qed.

Lemma day_gaps_regular (t0 step : Z) (n a : nat) :
  0 <= step < 2 ^ 63 ->
  Forall (fun g => g = step / ns_per_day)
    (day_gaps (map (fun i => t0 + Z.of_nat i * step) (seq a n))).
Proof.
  intros Hs. unfold day_gaps. revert a.
  induction n as [|n IH]; intros a; [constructor|].
  specialize (IH (S a)).
  destruct n as [|n]; [constructor|].
  cbn [seq map] in *.
  match goal with |- context [np_diff (?x :: ?y :: ?l)] =>
    change (np_diff (x :: y :: l)) with (wrap64 (y - x) :: np_diff (y :: l)) end.
  cbn [map]. constructor.
  - replace (t0 + Z.of_nat (S a) * step - (t0 + Z.of_nat a * step)) with step by lia.
    rewrite wrap64_small by lia. apply astype_days_nonneg. lia.
  - exact IH.
Qed.

(** X3. An index sampled at a fixed step (at least three timestamps, the
    step counted in nanoseconds) gets its period from the step alone: 7
    below two days, 52 from two days to just under eight, 12 from eight
    days on.  Gaps count in whole days, so a step of 47 hours is one day. *)
Theorem infer_period_regular (t0 step : Z) (n : nat) :
  (3 <= n)%nat ->
  0 <= step < 2 ^ 63 ->
  infer_period (map (fun i => t0 + Z.of_nat i * step) (seq 0 n)) =
    Some (if step <? 2 * ns_per_day then 7
          else if step <? 8 * ns_per_day then 52 else 12).
Proof.
  intros Hn Hs.
  set (ts := map (fun i => t0 + Z.of_nat i * step) (seq 0 n)).
  assert (Hlen : (3 <= length ts)%nat)
    by (unfold ts; now rewrite length_map, length_seq).
  destruct (infer_period_long ts Hlen) as (med & Hmed & ->).
  assert (Hb : step / ns_per_day <= med <= step / ns_per_day).
  { apply (@int_median_bounds _ _ (day_gaps ts)); [|exact Hmed].
    eapply Forall_impl; [|apply (day_gaps_regular t0 n 0 Hs)].
    intros g ->. lia. }
  assert (E : med = step / ns_per_day) by lia. rewrite E.
  assert (Hpos : 0 < ns_per_day) by reflexivity.
  f_equal.
  destruct (Z.ltb_spec step (2 * ns_per_day)) as [H2|H2].
  - assert (step / ns_per_day < 2) by (apply Z.div_lt_upper_bound; lia).
    destruct (Z.leb_spec (step / ns_per_day) 1); [reflexivity | lia].
  - assert (2 <= step / ns_per_day) by (apply Z.div_le_lower_bound; lia).
    destruct (Z.leb_spec (step / ns_per_day) 1); [lia|].
    destruct (Z.ltb_spec step (8 * ns_per_day)) as [H8|H8].
    + assert (step / ns_per_day < 8) by (apply Z.div_lt_upper_bound; lia).
      destruct (Z.leb_spec (step / ns_per_day) 7); [reflexivity | lia].
    + assert (8 <= step / ns_per_day) by (apply Z.div_le_lower_bound; lia).
      destruct (Z.leb_spec (step / ns_per_day) 7); [lia | reflexivity].
Qed.

Lemma infer_period_regular_witness :
  infer_period (map (fun i => day 10 + Z.of_nat i * (47 * 3600000000000)) (seq 0 5))
  = Some 7.
Proof.
  apply (@infer_period_regular (day 10) (47 * 3600000000000) 5).
  - lia.
  - vm_compute. split; [discriminate | reflexivity].
Defined.

(** ** Cleaning: what happens to the rows *)

Local Abbreviation not_flag :=
  (fun lc : str * list cell => negb (str_eqb (fst lc) isPartial)).

Lemma filter_data_absent (d : list (str * list cell)) :
  str_in isPartial (map fst d) = false -> filter not_flag d = d.
Proof.
  intros H. apply forallb_filter_id, forallb_forall. intros lc Hlc.
  simpl. destruct (str_eqb (fst lc) isPartial) eqn:E; [|reflexivity].
  apply str_eqb_eq in E.
  assert (Hin : In isPartial (map fst d)) by (rewrite <- E; now apply in_map).
  apply str_in_In in Hin. congruence.
Qed.

Lemma filter_drop_last_swap (d : list (str * list cell)) :
  filter not_flag (map (fun lc => (fst lc, removelast (snd lc))) d) =
  map (fun lc => (fst lc, removelast (snd lc))) (filter not_flag d).
Proof.
  induction d as [|lc d IH]; simpl; [reflexivity|].
  destruct (negb (str_eqb (fst lc) isPartial)); simpl; now rewrite IH.
Qed.

(** The columns of the cleaned table, when cleaning takes place. *)
Lemma clean_data (raw : DataFrame) :
  empty raw = false ->
  data (clean raw) =
    map (fun lc => (fst lc,
                    take_sorted (removelast (index raw)) (removelast (snd lc))))
        (filter not_flag (data raw)).
Proof.
  intros He. unfold clean. rewrite He.
  destruct (empty_false raw He) as [Hi _].
  assert (Hl : (0 <? len raw)%nat = true).
  { apply Nat.ltb_lt. unfold len. destruct (index raw); [congruence | simpl; lia]. }
  rewrite Hl. unfold pd_to_datetime. rewrite columns_iloc_drop_last.
  destruct (str_in isPartial (columns raw)) eqn:E; simpl.
  - rewrite filter_drop_last_swap, map_map. reflexivity.
  - rewrite (filter_data_absent _ E), map_map. reflexivity.
Qed.

(** A list already in the order of its keys is left as it is. *)
Lemma sort_by_sorted_id (A : Type) (key : A -> Z) (l : list A) :
  StronglySorted (key_le key) l -> sort_by key l = l.
Proof.
  induction 1 as [|x l Hs IH Hall]; simpl; [reflexivity|].
  rewrite IH. destruct l as [|y l]; simpl; [reflexivity|].
  apply Forall_inv in Hall. unfold key_le in Hall.
  apply Z.leb_le in Hall. now rewrite Hall.
Qed.

Lemma combine_sorted (B : Type) (idx : list Timestamp) (col : list B) :
  StronglySorted Z.le idx -> StronglySorted (key_le fst) (combine idx col).
Proof.
  intros H. revert col.
  induction H as [|t idx Hs IH Hall]; intros col; simpl; [constructor|].
  destruct col as [|v col]; constructor; [apply IH|].
  apply Forall_forall. intros [t' v'] Hin. apply in_combine_l in Hin.
  rewrite Forall_forall in Hall. unfold key_le. simpl. now apply Hall.
Qed.

Lemma In_removelast (A : Type) (x : A) (l : list A) :
  In x (removelast l) -> In x l.
Proof.
  induction l as [|y l IH]; simpl; [tauto|].
  destruct l as [|z l]; [simpl; tauto|].
  intros [H|H]; [now left | right; now apply IH].
Qed.

Lemma removelast_sorted (idx : list Timestamp) :
  StronglySorted Z.le idx -> StronglySorted Z.le (removelast idx).
Proof.
  induction 1 as [|t idx Hs IH Hall]; simpl; [constructor|].
  destruct idx as [|t' idx]; constructor; [exact IH|].
  rewrite Forall_forall in *. intros x Hx. apply Hall.
  now apply In_removelast.
Qed.

Lemma map_snd_combine (B : Type) (idx : list Timestamp) (col : list B) :
  length col = length idx -> map snd (combine idx col) = col.
Proof.
  revert col. induction idx as [|t idx IH]; intros [|v col] H; simpl in *;
    try discriminate; [reflexivity|].
  now rewrite IH by lia.
Qed.

Lemma take_sorted_ascending (B : Type) (idx : list Timestamp) (col : list B) :
  StronglySorted Z.le idx -> length col = length idx -> take_sorted idx col = col.
Proof.
  intros Hs Hlen. unfold take_sorted.
  rewrite sort_by_sorted_id by now apply combine_sorted.
  now apply map_snd_combine.
Qed.

Lemma sorted_le_strongly (l : list Z) : Sorted Z.le l -> StronglySorted Z.le l.
Proof. apply Sorted_StronglySorted. intros x y z. apply Z.le_trans. Qed.

(** X4. When the provider's rows come in ascending order of time (and
    every column is as long as the index), cleaning changes no order: the
    cleaned index is the provider's without its last entry, and each column
    other than the completeness flag is the provider's without its last
    entry. *)
Theorem clean_of_ascending (raw : DataFrame) :
  empty raw = false ->
  Sorted Z.le (index raw) ->
  Forall (fun lc => length (snd lc) = len raw) (data raw) ->
  index (clean raw) = removelast (index raw) /\
  data (clean raw) =
    map (fun lc => (fst lc, removelast (snd lc)))
        (filter (fun lc => negb (str_eqb (fst lc) isPartial)) (data raw)).
Proof.
  intros He Hs Hwf. apply sorted_le_strongly, removelast_sorted in Hs.
  destruct (clean_nonempty raw He) as (Hidx & _ & _).
  split.
  - rewrite Hidx. apply sort_by_sorted_id.
    clear -Hs. induction Hs; constructor; assumption.
  - rewrite (clean_data raw He). apply map_ext_in.
    intros lc Hin. apply filter_In in Hin as [Hin _].
    rewrite Forall_forall in Hwf. specialize (Hwf lc Hin). unfold len in Hwf.
    f_equal. apply take_sorted_ascending; [exact Hs|].
    now rewrite !removelast_length, Hwf.
Qed.

Lemma clean_of_ascending_witness :
  index (clean monthly_table) = [day 0; day 31; day 59; day 90] /\
  data (clean monthly_table) =
    [(rocket_stove, [Int64 3; Int64 9; Int64 27; Int64 81])].
Proof.
  apply (@clean_of_ascending monthly_table).
  - reflexivity.
  - repeat constructor; discriminate.
  - repeat constructor.
Defined.

Lemma combine_fst_snd (A B : Type) (l : list (A * B)) :
  combine (map fst l) (map snd l) = l.
Proof.
  induction l as [|[a b] l IH]; simpl; [reflexivity | now rewrite IH].
Qed.

Lemma combine_index_twice (B : Type) (idx : list Timestamp) (col : list B) :
  length col = length idx ->
  combine idx idx = map (fun p => (fst p, fst p)) (combine idx col).
Proof.
  revert col. induction idx as [|t idx IH]; intros [|v col] H; simpl in *;
    try discriminate; [reflexivity|].
  now rewrite (IH col) by lia.
Qed.

(** Sorting the index and a column by the index sorts the rows. *)
Lemma take_sorted_rows (B : Type) (idx : list Timestamp) (col : list B) :
  length col = length idx ->
  combine (take_sorted idx idx) (take_sorted idx col) =
  sort_by fst (combine idx col).
Proof.
  intros H. unfold take_sorted.
  rewrite (combine_index_twice idx col H).
  rewrite (sort_by_map (fun p : Timestamp * B => (fst p, fst p)) fst fst)
    by reflexivity.
  rewrite map_map. simpl. apply combine_fst_snd.
Qed.

Lemma removelast_combine (A B : Type) (a : list A) (b : list B) :
  length a = length b ->
  removelast (combine a b) = combine (removelast a) (removelast b).
Proof.
  revert b. induction a as [|x a IH]; intros [|y b] H; simpl in *;
    try discriminate; [reflexivity|].
  destruct a as [|x' a]; destruct b as [|y' b]; simpl in *;
    try discriminate; [reflexivity|].
  f_equal. apply (IH (y' :: b)). simpl. lia.
Qed.

(** X5. Cleaning keeps every observation but the last whole: for each
    column of the provider's table other than the completeness flag, the
    (timestamp, value) pairs of the cleaned table are those of the
    provider's table without its last row, rearranged in ascending order of
    time. *)
Theorem clean_keeps_rows (raw : DataFrame) (label : str) (col : list cell) :
  empty raw = false ->
  In (label, col) (data raw) ->
  label <> isPartial ->
  length col = len raw ->
  exists col',
    In (label, col') (data (clean raw)) /\
    length col' = len (clean raw) /\
    Permutation (combine (index (clean raw)) col')
                (removelast (combine (index raw) col)) /\
    StronglySorted (key_le fst) (combine (index (clean raw)) col').
Proof.
  intros He Hin Hl Hlen. unfold len in *.
  destruct (clean_nonempty raw He) as (Hidx & _ & _).
  assert (Hr : length (removelast col) = length (removelast (index raw)))
    by now rewrite !removelast_length, Hlen.
  exists (take_sorted (removelast (index raw)) (removelast col)).
  assert (Hrows :
    combine (index (clean raw))
            (take_sorted (removelast (index raw)) (removelast col)) =
    sort_by fst (removelast (combine (index raw) col))).
  { rewrite Hidx, <- take_sorted_index, take_sorted_rows by exact Hr.
    now rewrite removelast_combine. }
  split; [|split; [|split]].
  - rewrite (clean_data raw He).
    apply (in_map (fun lc => (fst lc,
             take_sorted (removelast (index raw)) (removelast (snd lc))))
             _ (label, col)).
    apply filter_In. split; [exact Hin|]. simpl.
    destruct (str_eqb label isPartial) eqn:E; [|reflexivity].
    apply str_eqb_eq in E. contradiction.
  - rewrite take_sorted_length by exact Hr.
    now rewrite Hidx, sort_by_length.
  - rewrite Hrows. apply sort_by_perm.
  - rewrite Hrows. apply sort_by_sorted.
Qed.

Lemma clean_keeps_rows_witness :
  exists col',
    In (rocket_stove, col') (data (clean shuffled_table)) /\
    Permutation (combine (index (clean shuffled_table)) col')
      [(day 14, Int64 47); (day 0, Int64 40); (day 7, Int64 55)].
Proof.
  destruct (@clean_keeps_rows shuffled_table rocket_stove
              [Int64 47; Int64 40; Int64 55; Int64 12])
    as (col' & H1 & _ & H2 & _).
  - reflexivity.
  - left. reflexivity.
  - discriminate.
  - reflexivity.
  - exists col'. split; [exact H1 | exact H2].
Defined.

(** ** The trimmed keyword and the file name *)

Lemma rstrip_suffix (s : str) :
  exists ws, s = rstrip s ++ ws /\ forallb isspace ws = true.
Proof.
  unfold rstrip. destruct (lstrip_suffix (rev s)) as (ws & E & Hws).
  exists (rev ws). split; [|now rewrite forallb_rev].
  rewrite <- rev_app_distr, <- E. symmetry. apply rev_involutive.
Qed.

(** X6. Trimming removes a run of whitespace at each end and nothing else:
    the keyword is its trimmed form between two runs of whitespace, inner
    whitespace included, and the trimmed form neither starts nor ends with
    whitespace. *)
Theorem strip_decomposition (s : str) :
  exists ws1 ws2,
    s = ws1 ++ strip s ++ ws2 /\
    forallb isspace ws1 = true /\ forallb isspace ws2 = true /\
    (forall c r, strip s = c :: r -> isspace c = false) /\
    (forall r c, strip s = r ++ [c] -> isspace c = false).
Proof.
  destruct (lstrip_suffix s) as (ws1 & E1 & H1).
  destruct (rstrip_suffix (lstrip s)) as (ws2 & E2 & H2).
  exists ws1, ws2. unfold strip. split; [|split; [exact H1|split; [exact H2|split]]].
  - rewrite <- E2. exact E1.
  - intros c r E.
    pose proof (lstrip_rstrip_fixed (lstrip_idempotent s)) as Hfix.
    apply lstrip_fixed in Hfix. destruct Hfix as [Hn|(c' & r' & Hc & Hsp)].
    + rewrite Hn in E. discriminate.
    + rewrite Hc in E. inversion E; subst. exact Hsp.
  - intros r c E. unfold rstrip in E.
    apply (f_equal (@rev N)) in E.
    rewrite rev_involutive, rev_app_distr in E. simpl in E.
    pose proof (lstrip_idempotent (rev (lstrip s))) as Hfix.
    apply lstrip_fixed in Hfix. destruct Hfix as [Hn|(c' & r' & Hc & Hsp)].
    + rewrite Hn in E. discriminate.
    + rewrite Hc in E. inversion E; subst. exact Hsp.
Qed.

(** X7. The name of the exported file holds no space character: it is
    [stl_], the trimmed keyword with every space turned into an underscore,
    and [.csv], eight characters longer than the trimmed keyword. *)
Theorem csv_file_name_no_space (kw : str) :
  ~ In 32%N (csv_file_name kw) /\
  length (csv_file_name kw) = (length (strip kw) + 8)%nat /\
  (forall c, In c (strip kw) -> c <> 32%N -> In c (csv_file_name kw)).
Proof.
  unfold csv_file_name, replace_space. split; [|split].
  - rewrite !in_app_iff, in_map_iff. intros [H|[(c & Hc & _)|H]].
    + vm_compute in H. repeat destruct H as [H|H]; try discriminate H; exact H.
    + destruct (N.eqb_spec c 32); [discriminate | congruence].
    + vm_compute in H. repeat destruct H as [H|H]; try discriminate H; exact H.
  - rewrite !length_app, length_map. simpl. lia.
  - intros c Hc Hn. rewrite !in_app_iff, in_map_iff. right. left.
    exists c. split; [|exact Hc].
    destruct (N.eqb_spec c 32); [contradiction | reflexivity].
Qed.

(** ** The run: every way through it *)

Section RunFacts.
Variable float : Type.
Variable float_of_Z : Z -> float.
Variable interest_over_time : str -> str + DataFrame.
Variable STL_fit :
  list Timestamp -> list (list float) -> Z -> str + DecomposeResult float.

Local Abbreviation exec := (execution float_of_Z interest_over_time STL_fit).
Local Abbreviation fetch := (fetch_trends interest_over_time).
Local Abbreviation script := (app float_of_Z interest_over_time STL_fit).
Local Abbreviation outcome := (run_outcome float_of_Z interest_over_time STL_fit).
Local Abbreviation sel := (selected float_of_Z).

(** The table the constructor accepts is the five columns, all as long as
    the index. *)
Lemma assemble_inv (y_index : list Timestamp) (y_values : list (list float))
    (res : DecomposeResult float) (df_plot : PlotFrame float) :
  assemble y_index y_values res = Some df_plot ->
  exists original,
    y_values = [original] /\
    df_plot = [ (lit "date", map (@Date float) y_index);
                (lit "original", map (@Num float) original);
                (lit "trend", map (@Num float) (trend res));
                (lit "seasonal", map (@Num float) (seasonal res));
                (lit "remainder", map (@Num float) (resid res)) ] /\
    length original = length y_index /\
    length (trend res) = length y_index /\
    length (seasonal res) = length y_index /\
    length (resid res) = length y_index.
Proof.
  unfold assemble. destruct y_values as [|original [|? ?]]; try discriminate.
  unfold pd_DataFrame.
  match goal with |- context [forallb ?f ?l] => destruct (forallb f l) eqn:E end;
    [|discriminate].
  intros H. inversion H; subst; clear H.
  exists original. split; [reflexivity|]. split; [reflexivity|].
  simpl in E. rewrite !length_map in E.
  repeat (apply andb_true_iff in E; destruct E as [?%Nat.eqb_eq E]).
  repeat split; assumption.
Qed.

Lemma build_figure_of_assemble (y_index : list Timestamp)
    (y_values : list (list float)) (res : DecomposeResult float)
    (df_plot : PlotFrame float) (title_kw : str) :
  assemble y_index y_values res = Some df_plot ->
  exists original,
    y_values = [original] /\
    build_figure df_plot title_kw =
      Some {| title_text :=
                lit "STL Decomposition " ++ em_dash ++ lit " " ++ title_kw
                ++ lit " " ++ em_dash ++ lit " Google Trends (US, last 5y)";
              traces :=
                [ (lit "Original", map (@Date float) y_index,
                   map (@Num float) original);
                  (lit "Trend", map (@Date float) y_index,
                   map (@Num float) (trend res));
                  (lit "Seasonal", map (@Date float) y_index,
                   map (@Num float) (seasonal res));
                  (lit "Residual", map (@Date float) y_index,
                   map (@Num float) (resid res)) ] |}.
Proof.
  intros H. apply assemble_inv in H as (original & -> & -> & _).
  exists original. split; reflexivity.
Qed.

Lemma strip_eqb_false (kw : str) : str_eqb (strip kw) [] = false <-> strip kw <> [].
Proof.
  destruct (str_eqb (strip kw) []) eqn:E.
  - apply str_eqb_eq in E. split; [discriminate | congruence].
  - split; [|reflexivity]. intros _ H. apply str_eqb_eq in H. congruence.
Qed.

(** A run takes one of the seven ways of [run_outcome]. *)
Lemma execution_outcome (kw : str) (log : list (event float)) (s : status unit) :
  exec kw = (log, s) -> outcome kw log s.
Proof.
  unfold execution.
  destruct (str_eqb (strip kw) []) eqn:E1.
  { simpl. intros H. inversion H; subst. constructor. now apply str_eqb_eq. }
  pose proof (proj1 (strip_eqb_false kw) E1) as Hkw.
  destruct (fetch (strip kw)) as [e|df] eqn:Hf.
  { simpl. intros H. inversion H; subst. now constructor. }
  simpl. destruct (empty df) eqn:He.
  { simpl. intros H. inversion H; subst. now apply empty_result with (df := df). }
  simpl. destruct (str_in (strip kw) (columns df)) eqn:Hc.
  2:{ simpl. intros H. inversion H; subst.
      now apply column_mismatch with (df := df). }
  simpl. destruct (infer_period_total (index df)) as (period & Hp & _).
  rewrite Hp. simpl.
  destruct (STL_fit (index df)
              (map (map (astype_float float_of_Z)) (getitem df (strip kw))) period)
    as [e|res] eqn:Hs.
  { simpl. intros H. inversion H; subst.
    now apply decomposition_failure with (df := df). }
  simpl.
  destruct (assemble (index df)
              (map (map (astype_float float_of_Z)) (getitem df (strip kw))) res)
    as [df_plot|] eqn:Ha.
  2:{ simpl. intros H. inversion H; subst.
      now apply table_refused with (df := df) (res := res). }
  destruct (@build_figure_of_assemble _ _ _ _ (strip kw) Ha) as (original & _ & Hfig).
  simpl. rewrite Hfig. simpl. intros H. inversion H; subst.
  now apply completed with (df := df) (res := res).
Qed.

(** X8. When the provider raises, a run with a keyword that is not blank
    shows the fetch error with the exception's text and the tip about
    [urllib3], and stops. *)
Theorem fetch_failure_reported (kw e : str) :
  strip kw <> [] ->
  interest_over_time (strip kw) = inl e ->
  script kw true =
    ([ call_fetch_trends float (strip kw);
       st_error float (msg_fetch_error e);
       st_info float msg_tip ], Stopped).
Proof.
  intros Hkw He. apply strip_eqb_false in Hkw.
  unfold app, execution, fetch_trends. rewrite Hkw, He. reflexivity.
Qed.

Lemma clean_empty_when (raw : DataFrame) :
  (len raw <= 1)%nat \/ data raw = [] -> empty (clean raw) = true.
Proof.
  intros H. destruct (empty raw) eqn:He.
  - unfold clean. now rewrite He.
  - destruct (empty_false raw He) as [Hi Hd].
    destruct H as [H|H]; [|contradiction].
    destruct (clean_nonempty raw He) as (Hidx & _ & _).
    unfold empty, len in *. rewrite Hidx.
    destruct (index raw) as [|t [|t' idx]]; simpl in *; [congruence | reflexivity | lia].
Qed.

(** X9. A provider table with a single row, with no row or with no column
    never reaches the analysis: once the trailing row is dropped nothing is
    left, and the run shows the no-data warning and stops. *)
Theorem single_observation_is_no_data (kw : str) (raw : DataFrame) :
  strip kw <> [] ->
  interest_over_time (strip kw) = inr raw ->
  (len raw <= 1)%nat \/ data raw = [] ->
  script kw true =
    ([ call_fetch_trends float (strip kw); st_warning float msg_no_data ],
     Stopped).
Proof.
  intros Hkw Hraw H. apply strip_eqb_false in Hkw.
  apply clean_empty_when in H.
  unfold app, execution, fetch_trends. rewrite Hkw, Hraw. simpl.
  rewrite H. reflexivity.
Qed.

(** X10. When the decomposition raises on the selected series, the run
    shows the decomposition error with the exception's text and stops: no
    chart, no table, no download. *)
Theorem decomposition_failure_reported (kw e : str) (df : DataFrame) (period : Z) :
  strip kw <> [] ->
  fetch (strip kw) = inr df ->
  empty df = false ->
  In (strip kw) (columns df) ->
  infer_period (index df) = Some period ->
  STL_fit (index df) (sel df kw) period = inl e ->
  script kw true =
    ([ call_fetch_trends float (strip kw);
       call_infer_period float (index df);
       call_STL float period;
       st_error float (msg_stl_failed e) ], Stopped) /\
  existsb (@is_display float) (fst (script kw true)) = false.
Proof.
  intros Hkw Hf He Hc Hp Hs. apply strip_eqb_false in Hkw.
  apply str_in_In in Hc.
  assert (E : script kw true =
    ([ call_fetch_trends float (strip kw);
       call_infer_period float (index df);
       call_STL float period;
       st_error float (msg_stl_failed e) ], Stopped)).
  { unfold app, execution. rewrite Hkw, Hf. simpl. rewrite He. simpl.
    rewrite Hc. simpl. rewrite Hp. simpl.
    unfold selected in Hs. rewrite Hs. reflexivity. }
  split; [exact E|]. rewrite E. reflexivity.
Qed.

(** X11. The keyword [isPartial] can never be analysed: cleaning drops
    every column of that name, so such a run always stops, and stops before
    any period is inferred. *)
Theorem flag_keyword_never_analysed (kw : str) :
  strip kw = isPartial ->
  snd (script kw true) = Stopped /\
  existsb (@is_inference_or_decomposition float) (fst (script kw true)) = false.
Proof.
  intros Hk. destruct (script kw true) as [log s] eqn:E. simpl.
  apply execution_outcome in E.
  assert (Hno : forall df, fetch (strip kw) = inr df -> empty df = false ->
                 str_in (strip kw) (columns df) = true -> False).
  { intros df Hf He Hc. unfold fetch_trends in Hf.
    destruct (interest_over_time (strip kw)) as [|raw]; [discriminate|].
    inversion Hf; subst df. pose proof (clean_empty_raw raw He) as Hr.
    destruct (clean_nonempty raw Hr) as (_ & Hcols & _).
    rewrite Hcols, Hk, str_in_filter_self in Hc. discriminate. }
  destruct E; try (split; reflexivity); exfalso; eauto.
Qed.

(** X12. A run fetches once, with the trimmed keyword, unless the keyword
    is blank, when it does not fetch at all. *)
Theorem fetch_exactly_once (kw : str) :
  filter (@is_fetch float) (fst (script kw true)) =
    if str_eqb (strip kw) [] then [] else [call_fetch_trends float (strip kw)].
Proof.
  destruct (script kw true) as [log s] eqn:E. simpl.
  apply execution_outcome in E.
  destruct E as [Hk|e Hk|df Hk|df Hk|df p e Hk|df p res Hk|df p res dfp fig Hk];
    try (apply strip_eqb_false in Hk; rewrite Hk; reflexivity).
  rewrite Hk. reflexivity.
Qed.

Local Ltac pick_event Hin :=
  simpl in Hin;
  repeat (destruct Hin as [Hin|Hin]; try discriminate Hin);
  try contradiction; inversion Hin; subst; clear Hin.

Lemma fetch_inv (keyword : str) (df : DataFrame) :
  fetch keyword = inr df ->
  exists raw, interest_over_time keyword = inr raw /\ df = clean raw.
Proof.
  unfold fetch_trends. destruct (interest_over_time keyword) as [|raw];
    [discriminate|].
  intros H. inversion H. now exists raw.
Qed.

(** X13. A decomposition is only ever asked for after a fetch that
    returned a table which, once cleaned, is not empty and has a column of
    the trimmed keyword's name; and the period it is given is the one
    inferred from that table's index, one of 7, 52 and 12. *)
Theorem decomposition_guarded (kw : str) (period : Z) :
  In (call_STL float period) (fst (script kw true)) ->
  exists df,
    fetch (strip kw) = inr df /\
    empty df = false /\
    In (strip kw) (columns df) /\
    infer_period (index df) = Some period /\
    (period = 7 \/ period = 52 \/ period = 12).
Proof.
  destruct (script kw true) as [log s] eqn:E. simpl.
  apply execution_outcome in E. intros Hin.
  assert (Hper : forall df, infer_period (index df) = Some period ->
                   period = 7 \/ period = 52 \/ period = 12).
  { intros df Hp. destruct (infer_period_total (index df)) as (p & Hp' & Hc).
    congruence. }
  destruct E as [Hk|e Hk Hf|df Hk Hf He|df Hk Hf He Hc|df p e Hk Hf He Hc Hp Hs
                |df p res Hk Hf He Hc Hp Hs Ha|df p res dfp fig Hk Hf He Hc Hp Hs Ha Hb];
    pick_event Hin; exists df; apply str_in_In in Hc; eauto 10.
Qed.

(** X14. The index handed to period inference (and to the decomposition)
    is in ascending order, is not empty, and holds the timestamps of the
    provider's rows without the last one. *)
Theorem inferred_index_ascending (kw : str) (dt_index : list Timestamp) :
  In (call_infer_period float dt_index) (fst (script kw true)) ->
  exists raw,
    interest_over_time (strip kw) = inr raw /\
    Sorted Z.le dt_index /\
    dt_index <> [] /\
    Permutation dt_index (removelast (index raw)).
Proof.
  destruct (script kw true) as [log s] eqn:E. simpl.
  apply execution_outcome in E. intros Hin.
  assert (Hgen : forall df, fetch (strip kw) = inr df -> empty df = false ->
            exists raw, interest_over_time (strip kw) = inr raw /\
              Sorted Z.le (index df) /\ index df <> [] /\
              Permutation (index df) (removelast (index raw))).
  { intros df Hf He. destruct (fetch_inv _ Hf) as (raw & Hraw & ->).
    exists raw. split; [exact Hraw|].
    destruct (empty_false _ He) as [Hi _].
    destruct (clean_nonempty raw (clean_empty_raw raw He)) as (Hidx & _ & _).
    split; [|split; [exact Hi|]].
    - rewrite Hidx. apply StronglySorted_Sorted, sorted_le_of_key, sort_by_sorted.
    - rewrite Hidx. apply sort_by_perm. }
  destruct E as [Hk|e Hk Hf|df Hk Hf He|df Hk Hf He Hc|df p e Hk Hf He Hc Hp Hs
                |df p res Hk Hf He Hc Hp Hs Ha|df p res dfp fig Hk Hf He Hc Hp Hs Ha Hb];
    pick_event Hin; eauto.
Qed.

(** X15. Results are shown exactly in the runs that complete: a run that
    stops or raises shows no chart, no table and no download button. *)
Theorem display_iff_completed (kw : str) :
  existsb (@is_display float) (fst (script kw true)) = true <->
  snd (script kw true) = Continue tt.
Proof.
  destruct (script kw true) as [log s] eqn:E. simpl.
  apply execution_outcome in E.
  destruct E; simpl; split; intros Hx; try discriminate Hx; reflexivity.
Qed.

(** X16. Every run that stops tells the user why exactly once (one error
    or warning message); a run that completes shows none. *)
Theorem stop_reported_once (kw : str) :
  (snd (script kw true) = Stopped ->
   length (filter (@is_report float) (fst (script kw true))) = 1%nat) /\
  (snd (script kw true) = Continue tt ->
   filter (@is_report float) (fst (script kw true)) = []).
Proof.
  destruct (script kw true) as [log s] eqn:E. simpl.
  apply execution_outcome in E.
  destruct E; simpl; split; intros Hx; try discriminate Hx; reflexivity.
Qed.

Lemma filter_label_absent (label : str) (d : list (str * list cell)) :
  ~ In label (map fst d) ->
  filter (fun lc => str_eqb (fst lc) label) d = [].
Proof.
  induction d as [|[l c] d IH]; simpl; [reflexivity|].
  intros Hn. destruct (str_eqb l label) eqn:E.
  - apply str_eqb_eq in E. exfalso. apply Hn. now left.
  - apply IH. intros Hin. apply Hn. now right.
Qed.

(** Under distinct labels a label that is there selects one column. *)
Lemma getitem_single (df : DataFrame) (label : str) :
  NoDup (columns df) -> In label (columns df) ->
  exists col, getitem df label = [col] /\ In (label, col) (data df).
Proof.
  unfold columns, getitem. induction (data df) as [|[l c] d IH]; simpl;
    [tauto|].
  intros Hnd Hin. apply NoDup_cons_iff in Hnd as [Hl Hnd].
  destruct (str_eqb l label) eqn:E.
  - apply str_eqb_eq in E. subst l. exists c. simpl.
    rewrite (@filter_label_absent label d Hl). split; [reflexivity | now left].
  - destruct Hin as [Hin|Hin].
    + subst l. now rewrite str_eqb_refl in E.
    + destruct (IH Hnd Hin) as (col & Hg & Hc). exists col. split; auto.
Qed.

Lemma assemble_aligned (y_index : list Timestamp) (original : list float)
    (res : DecomposeResult float) :
  length original = length y_index ->
  length (trend res) = length y_index ->
  length (seasonal res) = length y_index ->
  length (resid res) = length y_index ->
  assemble y_index [original] res <> None.
Proof.
  intros H1 H2 H3 H4. unfold assemble, pd_DataFrame. simpl.
  rewrite !length_map, H1, H2, H3, H4, Nat.eqb_refl. simpl. discriminate.
Qed.

(** X17. No exception escapes a run when the provider's table is well
    formed (distinct column names, every column as long as the index) and
    the decomposition, when it succeeds on a series, returns components as
    long as the series. *)
Theorem run_never_raises (kw : str) :
  (forall raw, interest_over_time (strip kw) = inr raw ->
     NoDup (columns raw) /\
     Forall (fun lc => length (snd lc) = len raw) (data raw)) ->
  (forall y_index y period res,
     length y = length y_index ->
     STL_fit y_index [y] period = inr res ->
     length (trend res) = length y_index /\
     length (seasonal res) = length y_index /\
     length (resid res) = length y_index) ->
  snd (script kw true) <> Raised.
Proof.
  intros Hprov Hstl.
  destruct (script kw true) as [log s] eqn:E. simpl.
  apply execution_outcome in E.
  destruct E as [Hk|e Hk Hf|df Hk Hf He|df Hk Hf He Hc|df p e Hk Hf He Hc Hp Hs
                |df p res Hk Hf He Hc Hp Hs Ha|df p res dfp fig Hk Hf He Hc Hp Hs Ha Hb];
    try discriminate.
  exfalso.
  destruct (fetch_inv _ Hf) as (raw & Hraw & ->).
  destruct (Hprov raw Hraw) as [Hnd Hwf].
  pose proof (clean_empty_raw raw He) as Hr.
  destruct (clean_nonempty raw Hr) as (_ & Hcols & _).
  assert (Hnd' : NoDup (columns (clean raw)))
    by (rewrite Hcols; now apply NoDup_filter).
  apply str_in_In in Hc.
  destruct (@getitem_single (clean raw) (strip kw) Hnd' Hc) as (col & Hg & Hin).
  pose proof (@clean_aligned raw Hwf) as Hal.
  rewrite Forall_forall in Hal. specialize (Hal _ Hin). simpl in Hal.
  unfold selected in Hs, Ha. rewrite Hg in Hs, Ha. simpl in Hs, Ha.
  assert (Hy : length (map (astype_float float_of_Z) col) =
               length (index (clean raw)))
    by (rewrite length_map; exact Hal).
  destruct (Hstl _ _ _ _ Hy Hs) as (H2 & H3 & H4).
  exact (@assemble_aligned _ _ _ Hy H2 H3 H4 Ha).
Qed.

(** X18. On the table of a run the figure is always built: four traces
    named Original, Trend, Seasonal and Residual, in this order, all over
    the dates of the series and each with one point per date, under a title
    that holds the keyword as given. *)
Theorem figure_of_table (y_index : list Timestamp) (y_values : list (list float))
    (res : DecomposeResult float) (df_plot : PlotFrame float) (title_kw : str) :
  assemble y_index y_values res = Some df_plot ->
  exists fig,
    build_figure df_plot title_kw = Some fig /\
    map (fun tr => fst (fst tr)) (traces fig) =
      [lit "Original"; lit "Trend"; lit "Seasonal"; lit "Residual"] /\
    Forall (fun tr => snd (fst tr) = map (@Date float) y_index /\
                      length (snd tr) = length y_index) (traces fig) /\
    exists before after, title_text fig = before ++ title_kw ++ after.
Proof.
  intros Ha.
  destruct (@build_figure_of_assemble _ _ _ _ title_kw Ha) as (original & Ey & Hfig).
  apply assemble_inv in Ha as (original' & E & _ & H1 & H2 & H3 & H4).
  assert (original' = original) by congruence. subst original'.
  eexists. split; [exact Hfig|]. cbn [traces title_text].
  split; [reflexivity|]. split.
  - repeat (apply Forall_cons; [cbn [fst snd]; rewrite length_map; auto|]).
    apply Forall_nil.
  - exists (lit "STL Decomposition " ++ em_dash ++ lit " "),
           (lit " " ++ em_dash ++ lit " Google Trends (US, last 5y)").
    now rewrite <- !app_assoc.
Qed.
End RunFacts.

(** ** The further statements at concrete inputs *)

Lemma fetch_failure_reported_witness :
  execution (fun z => z) unreachable_provider stub_STL_fit (lit " rocket stove") =
    ([ call_fetch_trends Z rocket_stove;
       st_error Z (msg_fetch_error (lit "HTTPSConnectionPool: Read timed out."));
       st_info Z msg_tip ], Stopped).
Proof.
  apply (@fetch_failure_reported Z (fun z => z) unreachable_provider stub_STL_fit
           (lit " rocket stove") (lit "HTTPSConnectionPool: Read timed out.")).
  - vm_compute. discriminate.
  - reflexivity.
Defined.

Lemma single_observation_is_no_data_witness :
  execution (fun z => z) one_row_provider stub_STL_fit (lit "rocket stove ") =
    ([ call_fetch_trends Z rocket_stove; st_warning Z msg_no_data ], Stopped).
Proof.
  apply (@single_observation_is_no_data Z (fun z => z) one_row_provider stub_STL_fit
           (lit "rocket stove ")
           {| index := [day 0];
              data := [(rocket_stove, [Int64 40]); (isPartial, [Boolean true])] |}).
  - vm_compute. discriminate.
  - reflexivity.
  - left. unfold len. simpl. lia.
Defined.

Lemma decomposition_failure_reported_witness :
  execution (fun z => z) stub_interest_over_time failing_STL_fit rocket_stove =
    ([ call_fetch_trends Z rocket_stove;
       call_infer_period Z [day 0; day 7; day 14];
       call_STL Z 52;
       st_error Z (msg_stl_failed (lit "period must be a positive integer >= 2")) ],
     Stopped).
Proof.
  apply (@decomposition_failure_reported Z (fun z => z) stub_interest_over_time
           failing_STL_fit rocket_stove
           (lit "period must be a positive integer >= 2")
           (clean (weekly_table rocket_stove)) 52).
  - vm_compute. discriminate.
  - reflexivity.
  - reflexivity.
  - left. reflexivity.
  - reflexivity.
  - reflexivity.
Defined.

Lemma flag_keyword_never_analysed_witness :
  snd (stub_execution (lit " isPartial ")) = Stopped.
Proof.
  apply (@flag_keyword_never_analysed Z (fun z => z) stub_interest_over_time
           stub_STL_fit (lit " isPartial ")).
  reflexivity.
Defined.

Lemma decomposition_guarded_witness :
  exists df,
    fetch_trends stub_interest_over_time (strip rocket_stove) = inr df /\
    empty df = false /\
    In (strip rocket_stove) (columns df) /\
    infer_period (index df) = Some 52 /\
    (52 = 7 \/ 52 = 52 \/ 52 = 12).
Proof.
  apply (@decomposition_guarded Z (fun z => z) stub_interest_over_time stub_STL_fit
           rocket_stove 52).
  vm_compute. right. right. left. reflexivity.
Defined.

Lemma inferred_index_ascending_witness :
  exists raw,
    stub_interest_over_time (strip rocket_stove) = inr raw /\
    Sorted Z.le [day 0; day 7; day 14] /\
    [day 0; day 7; day 14] <> [] /\
    Permutation [day 0; day 7; day 14] (removelast (index raw)).
Proof.
  apply (@inferred_index_ascending Z (fun z => z) stub_interest_over_time
           stub_STL_fit rocket_stove [day 0; day 7; day 14]).
  vm_compute. right. left. reflexivity.
Defined.

Lemma run_never_raises_witness :
  snd (stub_execution rocket_stove) <> Raised.
Proof.
  apply (@run_never_raises Z (fun z => z) stub_interest_over_time stub_STL_fit
           rocket_stove).
  - intros raw H. vm_compute in H. inversion H; subst raw. split.
    + unfold columns. simpl.
      apply NoDup_cons; [simpl; intros [E|[]]; discriminate E|].
      apply NoDup_cons; [simpl; tauto | apply NoDup_nil].
    + repeat constructor.
  - intros y_index y period res Hy H. simpl in H. inversion H; subst res.
    simpl. rewrite !length_map. auto.
Defined.

Lemma figure_of_table_witness :
  exists fig,
    build_figure
      [ (lit "date", [Date Z (day 0); Date Z (day 7)]);
        (lit "original", [Num 40; Num 55]);
        (lit "trend", [Num 40; Num 55]);
        (lit "seasonal", [Num 0; Num 0]);
        (lit "remainder", [Num 0; Num 0]) ] rocket_stove = Some fig /\
    map (fun tr => fst (fst tr)) (traces fig) =
      [lit "Original"; lit "Trend"; lit "Seasonal"; lit "Residual"].
Proof.
  destruct (@figure_of_table Z [day 0; day 7] [[40; 55]]
              {| trend := [40; 55]; seasonal := [0; 0]; resid := [0; 0] |}
              [ (lit "date", [Date Z (day 0); Date Z (day 7)]);
                (lit "original", [Num 40; Num 55]);
                (lit "trend", [Num 40; Num 55]);
                (lit "seasonal", [Num 0; Num 0]);
                (lit "remainder", [Num 0; Num 0]) ] rocket_stove)
    as (fig & Hb & Hn & _).
  - reflexivity.
  - exists fig. split; [exact Hb | exact Hn].
Defined.
